(** * WorkBuddy: session tracking and reminder scheduling

    A shallow embedding of the coordination core of WorkBuddy
    ([src/utils/time_utils.py], [src/db/database.py],
    [src/tracker/activity_tracker.py], [src/tracker/scheduler.py]) and the
    properties its specification states about it.

    Conventions.
    - Python integers are unbounded: they are [Z]; [//] and [%] with a
      positive divisor are [Z.div] and [Z.modulo] (both round to the floor),
      [int(x)] of a quotient is [Z.quot] (rounds to zero).
    - A [datetime] is the record of its fields; a [timedelta] is a number of
      microseconds, which is the resolution of [datetime.now()].
    - Python strings are [string]; one character stands for one code point.
    - A Python attribute that may be [None] is an [option]. *)

From Stdlib Require Import ZArith List String Ascii Bool Lia.
From stdpp Require Import base option gmap strings list.
Import ListNotations.

Local Open Scope string_scope.
Local Open Scope Z_scope.

(** ** src/utils/time_utils.py *)

Module TimeUtils.

(** [seconds_to_hms(seconds)]. *)
Definition seconds_to_hms (seconds : Z) : Z * Z * Z :=
  let hours := seconds / 3600 in
  let minutes := (seconds mod 3600) / 60 in
  let secs := seconds mod 60 in
  (hours, minutes, secs).

End TimeUtils.

(** ** The [datetime] module of the Python standard library

    Only what the tracker and the scheduler use: [date], [time], [datetime],
    [datetime.combine], [datetime.replace(day=...)], comparison, subtraction,
    [weekday()]. The calendar arithmetic follows CPython's [_pydatetime]. *)

Module Datetime.

Record date := mk_date { year : Z; month : Z; day : Z }.

Record time := mk_time { hour : Z; minute : Z; second : Z; microsecond : Z }.

Record datetime := mk_datetime { dt_date : date; dt_time : time }.

(** [_is_leap(year)]. *)
Definition is_leap (y : Z) : bool :=
  (y mod 4 =? 0) && (negb (y mod 100 =? 0) || (y mod 400 =? 0)).

(** [_DAYS_IN_MONTH], index 1..12. *)
Definition DAYS_IN_MONTH (m : Z) : Z :=
  match m with
  | 1 => 31 | 2 => 28 | 3 => 31 | 4 => 30 | 5 => 31 | 6 => 30
  | 7 => 31 | 8 => 31 | 9 => 30 | 10 => 31 | 11 => 30 | 12 => 31
  | _ => 0
  end.

(** [_days_in_month(year, month)]. *)
Definition days_in_month (y m : Z) : Z :=
  if (m =? 2) && is_leap y then 29 else DAYS_IN_MONTH m.

(** [_DAYS_BEFORE_MONTH], index 1..12. *)
Definition DAYS_BEFORE_MONTH (m : Z) : Z :=
  match m with
  | 1 => 0 | 2 => 31 | 3 => 59 | 4 => 90 | 5 => 120 | 6 => 151
  | 7 => 181 | 8 => 212 | 9 => 243 | 10 => 273 | 11 => 304 | 12 => 334
  | _ => 0
  end.

(** [_days_before_year(year)]. *)
Definition days_before_year (y : Z) : Z :=
  let y' := y - 1 in y' * 365 + y' / 4 - y' / 100 + y' / 400.

(** [_days_before_month(year, month)]. *)
Definition days_before_month (y m : Z) : Z :=
  DAYS_BEFORE_MONTH m + (if (2 <? m) && is_leap y then 1 else 0).

(** [date.toordinal()]: 1 is 0001-01-01. *)
Definition toordinal (d : date) : Z :=
  days_before_year (year d) + days_before_month (year d) (month d) + day d.

(** [date.weekday()]: Monday is 0, Sunday is 6. *)
Definition weekday (d : date) : Z := (toordinal d + 6) mod 7.

(** The checks of the [date] constructor ([_check_date_fields]). *)
Definition valid_date (d : date) : bool :=
  (1 <=? year d) && (year d <=? 9999) &&
  (1 <=? month d) && (month d <=? 12) &&
  (1 <=? day d) && (day d <=? days_in_month (year d) (month d)).

(** The checks of the [time] constructor ([_check_time_fields]). *)
Definition valid_time (t : time) : bool :=
  (0 <=? hour t) && (hour t <=? 23) &&
  (0 <=? minute t) && (minute t <=? 59) &&
  (0 <=? second t) && (second t <=? 59) &&
  (0 <=? microsecond t) && (microsecond t <=? 999999).

Definition valid_datetime (d : datetime) : bool :=
  valid_date (dt_date d) && valid_time (dt_time d).

(** Microseconds since midnight. *)
Definition time_micros (t : time) : Z :=
  ((hour t * 60 + minute t) * 60 + second t) * 1000000 + microsecond t.

(** Microseconds since the start of day 0 of the proleptic calendar. *)
Definition datetime_micros (d : datetime) : Z :=
  toordinal (dt_date d) * 86400000000 + time_micros (dt_time d).

(** [t1 <= t2] on naive times. *)
Definition time_le (t1 t2 : time) : bool := time_micros t1 <=? time_micros t2.

(** [d1 <= d2] on naive datetimes. *)
Definition datetime_le (d1 d2 : datetime) : bool :=
  datetime_micros d1 <=? datetime_micros d2.

(** [d1 - d2], a timedelta, in microseconds. *)
Definition datetime_sub (d1 d2 : datetime) : Z :=
  datetime_micros d1 - datetime_micros d2.

(** [int(td.total_seconds())]: whole seconds, rounded to zero. *)
Definition total_seconds_int (td : Z) : Z := Z.quot td 1000000.

(** [datetime.combine(d, t)]. *)
Definition combine (d : date) (t : time) : datetime := mk_datetime d t.

(** [dt.replace(day=d)]: the constructor checks the new fields and raises
    [ValueError] ([None]) when the day does not exist in the month. *)
Definition replace_day (dt : datetime) (d : Z) : option datetime :=
  let dt' := mk_datetime (mk_date (year (dt_date dt)) (month (dt_date dt)) d)
                         (dt_time dt) in
  if valid_datetime dt' then Some dt' else None.

(** [dt + timedelta(days=1)] on the date part, for stating what "tomorrow"
    is: the date of the next ordinal. *)
Definition next_day (d : date) : date :=
  if day d <? days_in_month (year d) (month d)
  then mk_date (year d) (month d) (day d + 1)
  else if month d <? 12 then mk_date (year d) (month d + 1) 1
  else mk_date (year d + 1) 1 1.

(** A convenient constructor for examples. *)
Definition at_ (y mo d h mi s : Z) : datetime :=
  mk_datetime (mk_date y mo d) (mk_time h mi s 0).

End Datetime.

(** ** Python built-ins used by the tracker *)

Module Py.

(** Truth value of a string: the empty string is false. *)
Definition truthy_str (s : string) : bool := negb (String.eqb s "").

(** Truth value of an integer: zero is false. *)
Definition truthy_int (n : Z) : bool := negb (n =? 0).

(** Truth value of an [Optional[str]]: [None] and [""] are false. *)
Definition truthy_opt_str (o : option string) : bool :=
  match o with Some s => truthy_str s | None => false end.

(** [s.replace(old, new)] for a non-empty [old]: the occurrences are
    found from the left and do not overlap. [skip] counts the characters
    of an occurrence that are still to be dropped. *)
Fixpoint replace_from (skip : nat) (old new s : string) : string :=
  match s with
  | EmptyString => EmptyString
  | String c s' =>
      match skip with
      | S k => replace_from k old new s'
      | O =>
          if String.prefix old s
          then new ++ replace_from (Nat.pred (String.length old)) old new s'
          else String c (replace_from O old new s')
      end
  end.

Definition replace (old new s : string) : string := replace_from O old new s.

(** [s.endswith(suffix)]. *)
Definition endswith (s suffix : string) : bool :=
  let n := String.length s in
  let m := String.length suffix in
  (m <=? n)%nat && String.eqb (String.substring (n - m) m s) suffix.

(** [s[:-k]] for [k > 0]. *)
Definition drop_last (k : nat) (s : string) : string :=
  String.substring 0 (String.length s - k) s.

(** [s[:k]]. *)
Definition take (k : nat) (s : string) : string := String.substring 0 k s.

End Py.

(** ** src/db/database.py

    The [app_usage] table. A timestamp column holds the [datetime] whose
    [isoformat()] the code stores; SQL [NULL] is [None]. The statements are
    taken to succeed. *)

Module Database.

Record usage_row := mk_row {
  row_id : Z;
  row_app_name : string;
  row_start_time : Datetime.datetime;
  row_end_time : option Datetime.datetime;
  row_duration_seconds : option Z }.

(** [last_id] is the AUTOINCREMENT counter of the table. *)
Record database := mk_db { app_usage : list usage_row; last_id : Z }.

Definition empty : database := mk_db [] 0.

(** [log_app_usage(app_name, start_time, end_time=None,
    duration_seconds=None)]: INSERT, returns [cursor.lastrowid]. *)
Definition log_app_usage (app_name : string) (start_time : Datetime.datetime)
    (end_time : option Datetime.datetime) (duration_seconds : option Z)
    (db : database) : database * Z :=
  let id := last_id db + 1 in
  (mk_db (app_usage db ++ [mk_row id app_name start_time end_time duration_seconds]) id,
   id).

(** [update_app_usage(usage_id, end_time, duration_seconds)]:
    UPDATE ... WHERE id = ?. *)
Definition update_app_usage (usage_id : Z) (end_time : Datetime.datetime)
    (duration_seconds : Z) (db : database) : database :=
  mk_db
    (List.map (fun r =>
       if row_id r =? usage_id
       then mk_row (row_id r) (row_app_name r) (row_start_time r)
                   (Some end_time) (Some duration_seconds)
       else r) (app_usage db))
    (last_id db).

(** The rows [get_active_session] selects from: [end_time IS NULL]. *)
Definition open_rows (db : database) : list usage_row :=
  List.filter (fun r => match row_end_time r with None => true | Some _ => false end)
              (app_usage db).

(** The rows a session of [app_name] started at [start_time] has. *)
Definition rows_of (app_name : string) (start_time : Datetime.datetime)
    (db : database) : list usage_row :=
  List.filter (fun r => String.eqb (row_app_name r) app_name &&
                        (Datetime.datetime_micros (row_start_time r) =?
                         Datetime.datetime_micros start_time))
              (app_usage db).

End Database.

(** ** src/tracker/activity_tracker.py

    The platform calls are inputs: one [observation] is what one iteration
    of the polling loop reads from the clock, from [get_idle_time] (in
    milliseconds, as [GetTickCount] gives it) and from
    [get_active_window_info]. The clock is read once per iteration. *)

Module ActivityTracker.
Import Datetime Database.

Record tracker := mk_tracker {
  db_manager : database;
  poll_interval : Z;
  current_app : option string;
  current_session_id : option Z;
  session_start_time : option datetime;
  is_running : bool;
  idle_threshold : Z }.

(** [__init__(db_manager, poll_interval=5)]. *)
Definition init (db : database) (poll : Z) : tracker :=
  mk_tracker db poll None None None false 300.

Record observation := mk_obs {
  now : datetime;
  idle_millis : Z;
  window_info : option string * option string }.

(** [is_system_idle]: [idle_time > self.idle_threshold], with
    [idle_time = millis / 1000.0]. *)
Definition is_system_idle (o : observation) (t : tracker) : bool :=
  idle_threshold t * 1000 <? idle_millis o.

Definition common_suffixes : list string :=
  [" - Google Chrome"; " - Mozilla Firefox"; " - Microsoft Edge";
   " - Visual Studio Code"; " - Notepad++"].

(** The [for suffix in common_suffixes: ... break] loop. *)
Fixpoint strip_suffix (suffixes : list string) (clean_title : string) : string :=
  match suffixes with
  | [] => clean_title
  | suffix :: rest =>
      if Py.endswith clean_title suffix
      then Py.drop_last (String.length suffix) clean_title
      else strip_suffix rest clean_title
  end.

(** [normalize_app_name(window_title, process_name)]. *)
Definition normalize_app_name (window_title process_name : string) : string :=
  if negb (Py.truthy_str window_title) && negb (Py.truthy_str process_name)
  then "Unknown"
  else
    let app_name :=
      if Py.truthy_str process_name
      then Py.replace ".exe" "" process_name else "Unknown" in
    if Py.truthy_str window_title then
      let clean_title := strip_suffix common_suffixes window_title in
      let clean_title :=
        if (50 <? String.length clean_title)%nat
        then Py.take 47 clean_title ++ "..." else clean_title in
      if negb (String.eqb clean_title app_name)
      then app_name ++ " (" ++ clean_title ++ ")" else app_name
    else app_name.

(** [start_session(app_name)]. *)
Definition start_session (app_name : string) (now : datetime) (t : tracker)
    : tracker :=
  let '(db, id) := log_app_usage app_name now None None (db_manager t) in
  mk_tracker db (poll_interval t) (Some app_name) (Some id) (Some now)
             (is_running t) (idle_threshold t).

(** [end_session()]. *)
Definition end_session (now : datetime) (t : tracker) : tracker :=
  let db :=
    match current_session_id t, session_start_time t with
    | Some id, Some start =>
        if Py.truthy_int id then
          let duration := total_seconds_int (datetime_sub now start) in
          if 1 <=? duration
          then update_app_usage id now duration (db_manager t)
          else db_manager t
        else db_manager t
    | _, _ => db_manager t
    end in
  mk_tracker db (poll_interval t) None None None (is_running t) (idle_threshold t).

(** The body of the [while self.is_running] loop of [track_activity]. *)
Definition track_activity_iteration (o : observation) (t : tracker) : tracker :=
  if is_system_idle o t then
    if Py.truthy_opt_str (current_app t) then end_session (now o) t else t
  else
    match window_info o with
    | (Some window_title, Some process_name) =>
        if Py.truthy_str window_title && Py.truthy_str process_name then
          let app_name := normalize_app_name window_title process_name in
          if negb (bool_decide (Some app_name = current_app t)) then
            let t1 :=
              if Py.truthy_opt_str (current_app t)
              then end_session (now o) t else t in
            start_session app_name (now o) t1
          else t
        else
          if Py.truthy_opt_str (current_app t) then end_session (now o) t else t
    | _ =>
        if Py.truthy_opt_str (current_app t) then end_session (now o) t else t
    end.

(** [start_tracking()]; the thread it starts runs the loop. *)
Definition start_tracking (t : tracker) : tracker :=
  if negb (is_running t)
  then mk_tracker (db_manager t) (poll_interval t) (current_app t)
                  (current_session_id t) (session_start_time t) true
                  (idle_threshold t)
  else t.

(** [stop_tracking()]. *)
Definition stop_tracking (now : datetime) (t : tracker) : tracker :=
  if is_running t then
    let t1 := mk_tracker (db_manager t) (poll_interval t) (current_app t)
                         (current_session_id t) (session_start_time t) false
                         (idle_threshold t) in
    if Py.truthy_opt_str (current_app t1) then end_session now t1 else t1
  else t.

(** What happens to a tracker: the calls of the menu layer and the
    iterations of the polling loop, which runs while [is_running]. *)
Inductive event :=
| StartTracking
| Poll (o : observation)
| StopTracking (now : datetime).

Definition step (t : tracker) (e : event) : tracker :=
  match e with
  | StartTracking => start_tracking t
  | Poll o => if is_running t then track_activity_iteration o t else t
  | StopTracking now => stop_tracking now t
  end.

Definition run (es : list event) (t : tracker) : tracker :=
  List.fold_left step es t.

(** A session's open state is held: some of the three attributes that
    [end_session] clears is set. *)
Definition holds_session (t : tracker) : bool :=
  match current_app t, current_session_id t, session_start_time t with
  | None, None, None => false
  | _, _, _ => true
  end.

End ActivityTracker.

(** ** src/tracker/scheduler.py

    - [settings] is the dictionary read from [config/settings.json]: a key
      may be absent ([None], and [.get] gives its default); a key that is
      present holds a value of the JSON type the code expects.
    - [time.fromisoformat] is a parameter: which strings it accepts depends
      on the Python version. [fromisoformat s = None] stands for a call that
      raises [ValueError], or gives a time with a UTC offset, which the
      comparison of the same [try] block rejects with [TypeError].
    - A [threading.Timer] is an entry of [threads]; [timers] holds indices
      into it, as the dictionary [self.timers] holds references.
    - The notifier and the queries of the database are collaborators: an
      [environment] says how they answer during one callback, and
      [notifier_calls] records the calls the notifier received.
    - The clock is read once per call of the scheduler and once per
      callback. *)

Module Scheduler.
Import Datetime.

Record settings := mk_settings {
  break_interval : option Z;
  hydration_interval : option Z;
  inspiration_interval : option Z;
  daily_summary_time : option string;
  work_start_time : option string;
  work_end_time : option string;
  notifications_enabled : option bool;
  work_days_only : option bool }.

(** The dictionary [load_settings] writes when the file does not exist. *)
Definition created_settings : settings :=
  mk_settings (Some 45) (Some 120) (Some 180) (Some "17:00") (Some "09:00")
              (Some "18:00") (Some true) (Some true).

(** [settings.get(key, dflt)]. *)
Definition get {A} (field : option A) (dflt : A) : A :=
  match field with Some v => v | None => dflt end.

Inductive kind :=
| break | hydration | inspiration | daily_summary
| eye_strain | posture | mood_checkin.

#[export] Instance kind_eq_dec : EqDecision kind.
Proof. solve_decision. Defined.

(** The key of a kind in [self.timers]. *)
Definition kind_name (k : kind) : string :=
  match k with
  | break => "break"
  | hydration => "hydration"
  | inspiration => "inspiration"
  | daily_summary => "daily_summary"
  | eye_strain => "eye_strain"
  | posture => "posture"
  | mood_checkin => "mood_checkin"
  end.

(** The methods of [self.notifier] the scheduler calls. *)
Inductive notifier_method :=
| show_break_reminder | send_break_reminder
| show_hydration_reminder | send_hydration_reminder
| send_inspiration_reminder
| send_daily_summary
| show_eye_strain_reminder | show_posture_reminder | show_mood_checkin.

#[export] Instance notifier_method_eq_dec : EqDecision notifier_method.
Proof. solve_decision. Defined.

Inductive timer_status :=
| Waiting     (* started, [finished.wait(interval)] has not returned *)
| Running     (* the wait timed out, the function is being called *)
| Finished    (* the function returned *)
| Died        (* the function raised *)
| Cancelled.  (* [cancel()] came before the wait timed out *)

(** [threading.Timer(interval, function)], started at [armed_at];
    [interval] is in microseconds, [function] is the callback of a kind. *)
Record timer := mk_timer {
  function : kind;
  armed_at : datetime;
  interval : Z;
  status : timer_status }.

Definition seconds (n : Z) : Z := n * 1000000.

(** When a timer calls its function, unless cancelled before. *)
Definition fire_time (t : timer) : Z := datetime_micros (armed_at t) + interval t.

(** [timer.is_alive()]. *)
Definition is_alive (t : timer) : bool :=
  match status t with Waiting | Running => true | _ => false end.

(** [timer.cancel()]: sets [finished]; a function that is already being
    called is not interrupted. *)
Definition cancel (t : timer) : timer :=
  match status t with
  | Waiting => mk_timer (function t) (armed_at t) (interval t) Cancelled
  | _ => t
  end.

Record scheduler := mk_scheduler {
  settings_of : settings;
  is_modal_notifier : bool;
  timers : gmap string nat;
  is_running : bool;
  start_time : option datetime;
  threads : list timer;
  notifier_calls : list notifier_method }.

(** [__init__(db_manager, notifier)]: [modal] is
    [hasattr(notifier, 'show_modal_notification')], [loaded] is what
    [load_settings] returns. *)
Definition init (modal : bool) (loaded : settings) : scheduler :=
  mk_scheduler loaded modal ∅ false None [] [].

(** How the collaborators answer during one callback: the clock, whether
    a method of the notifier raises, and whether the queries
    [send_summary] makes before it calls the notifier raise. *)
Record environment := mk_env {
  env_now : datetime;
  notifier_raises : notifier_method -> bool;
  db_raises : bool }.

(** The timer a key of [self.timers] refers to. *)
Definition timer_of (s : scheduler) (name : string) : option timer :=
  match timers s !! name with
  | Some id => threads s !! id
  | None => None
  end.

(** [timer = threading.Timer(interval, f); timer.start();
    self.timers[name] = timer]. *)
Definition arm (k : kind) (now : datetime) (interval : Z) (s : scheduler)
    : scheduler :=
  mk_scheduler (settings_of s) (is_modal_notifier s)
               (<[kind_name k := length (threads s)]> (timers s))
               (is_running s) (start_time s)
               (threads s ++ [mk_timer k now interval Waiting])
               (notifier_calls s).

(** [self.notifier.m(...)] is called. *)
Definition notify (m : notifier_method) (s : scheduler) : scheduler :=
  mk_scheduler (settings_of s) (is_modal_notifier s) (timers s) (is_running s)
               (start_time s) (threads s) (notifier_calls s ++ [m]).

(** [is_work_day()]. *)
Definition is_work_day (now : datetime) (s : scheduler) : bool :=
  if negb (get (work_days_only (settings_of s)) true) then true
  else weekday (dt_date now) <? 5.

(** [interval] of the timer of a kind other than [daily_summary], in
    seconds. *)
Definition reminder_interval (k : kind) (s : scheduler) : Z :=
  match k with
  | break => get (break_interval (settings_of s)) 45 * 60
  | hydration => get (hydration_interval (settings_of s)) 120 * 60
  | inspiration => get (inspiration_interval (settings_of s)) 180 * 60
  | eye_strain => 20 * 60
  | posture => 60 * 60
  | mood_checkin => 4 * 60 * 60
  | daily_summary => 0
  end.

(** The method [send_reminder] of a kind calls. *)
Definition reminder_method (k : kind) (s : scheduler) : notifier_method :=
  match k with
  | break =>
      if is_modal_notifier s then show_break_reminder else send_break_reminder
  | hydration =>
      if is_modal_notifier s then show_hydration_reminder
      else send_hydration_reminder
  | inspiration => send_inspiration_reminder
  | eye_strain => show_eye_strain_reminder
  | posture => show_posture_reminder
  | mood_checkin => show_mood_checkin
  | daily_summary => send_daily_summary
  end.

(** The part of [schedule_break_reminder], [schedule_hydration_reminder],
    [schedule_inspiration_reminder], [schedule_eye_strain_reminder],
    [schedule_posture_reminder] and [schedule_mood_checkin] after the
    definition of the callback. *)
Definition schedule_reminder (k : kind) (now : datetime) (s : scheduler)
    : scheduler :=
  arm k now (seconds (reminder_interval k s)) s.

Section WithParser.

Variable fromisoformat : string -> option time.

(** [is_work_hours()]. *)
Definition is_work_hours (now : datetime) (s : scheduler) : bool :=
  match fromisoformat (get (work_start_time (settings_of s)) "09:00") with
  | Some work_start =>
      match fromisoformat (get (work_end_time (settings_of s)) "18:00") with
      | Some work_end =>
          time_le work_start (dt_time now) && time_le (dt_time now) work_end
      | None => true
      end
  | None => true
  end.

(** [should_send_reminder()]. *)
Definition should_send_reminder (now : datetime) (s : scheduler) : bool :=
  if negb (get (notifications_enabled (settings_of s)) true) then false
  else if negb (is_work_day now s) then false
  else if negb (is_work_hours now s) then false
  else true.

(** [schedule_daily_summary()] after the definition of the callback. *)
Definition schedule_daily_summary (now : datetime) (s : scheduler)
    : scheduler :=
  let summary_time_str := get (daily_summary_time (settings_of s)) "17:00" in
  match fromisoformat summary_time_str with
  | None => s
  | Some summary_time =>
      let target_datetime := combine (dt_date now) summary_time in
      let target_datetime :=
        if datetime_le target_datetime now
        then replace_day target_datetime (day (dt_date target_datetime) + 1)
        else Some target_datetime in
      match target_datetime with
      | None => s
      | Some target_datetime =>
          let delay := datetime_sub target_datetime now in
          arm daily_summary now delay s
      end
  end.

(** [schedule_<kind>()]. *)
Definition schedule (k : kind) (now : datetime) (s : scheduler) : scheduler :=
  match k with
  | daily_summary => schedule_daily_summary now s
  | _ => schedule_reminder k now s
  end.

(** The callback [send_reminder] of a kind other than [daily_summary].
    The boolean is [false] when the call of the notifier raises: the
    exception leaves the callback, and the scheduler is as it was at
    that call. *)
Definition send_reminder (k : kind) (e : environment) (s : scheduler)
    : scheduler * bool :=
  if should_send_reminder (env_now e) s then
    let m := reminder_method k s in
    let s1 := notify m s in
    if notifier_raises e m then (s1, false)
    else (schedule k (env_now e) s1, true)
  else (schedule k (env_now e) s, true).

(** The callback [send_summary] of [daily_summary]. *)
Definition send_summary (e : environment) (s : scheduler) : scheduler * bool :=
  let s1 := if db_raises e then s else notify send_daily_summary s in
  (schedule_daily_summary (env_now e) s1, true).

(** The function of a timer; the boolean tells whether it returned. *)
Definition callback (k : kind) (e : environment) (s : scheduler)
    : scheduler * bool :=
  match k with
  | daily_summary => send_summary e s
  | _ => send_reminder k e s
  end.

(** [start_all_reminders()]. *)
Definition start_all_reminders (now : datetime) (s : scheduler) : scheduler :=
  if is_running s then s
  else
    let s := mk_scheduler (settings_of s) (is_modal_notifier s) (timers s)
                          true (Some now) (threads s) (notifier_calls s) in
    let s := schedule_reminder break now s in
    let s := schedule_reminder hydration now s in
    let s := schedule_reminder inspiration now s in
    let s := schedule_daily_summary now s in
    if is_modal_notifier s then
      let s := schedule_reminder eye_strain now s in
      let s := schedule_reminder posture now s in
      schedule_reminder mood_checkin now s
    else s.

End WithParser.

(** The body of the loop of [stop_all_reminders] for one item. *)
Definition cancel_if_alive (id : nat) (ths : list timer) : list timer :=
  match ths !! id with
  | Some t => if is_alive t then <[id := cancel t]> ths else ths
  | None => ths
  end.

(** [stop_all_reminders()]. *)
Definition stop_all_reminders (s : scheduler) : scheduler :=
  if negb (is_running s) then s
  else
    let ths :=
      foldr (fun item ths => cancel_if_alive item.2 ths) (threads s)
            (map_to_list (timers s)) in
    mk_scheduler (settings_of s) (is_modal_notifier s) ∅ false (start_time s)
                 ths (notifier_calls s).

(** Set the status of a thread. *)
Definition set_status (id : nat) (st : timer_status) (s : scheduler) : scheduler :=
  mk_scheduler (settings_of s) (is_modal_notifier s) (timers s) (is_running s)
               (start_time s)
               (alter (fun t => mk_timer (function t) (armed_at t) (interval t) st)
                      id (threads s))
               (notifier_calls s).

(** What happens to a scheduler: the calls of the menu layer and, for each
    timer thread, the end of its wait ([Expire]) and the call of its
    function ([Call]). The threads run concurrently with the menu layer,
    so a call of the menu layer may come between the two. A callback
    writes to the scheduler only in its last statement, the re-arming;
    running it in one step stands for every interleaving in which the
    other call precedes that statement. *)
Inductive event :=
| StartAll (now : datetime)
| StopAll
| Expire (id : nat)
| Call (id : nat) (e : environment).

Section Steps.

Variable fromisoformat : string -> option time.

Definition step (s : scheduler) (ev : event) : scheduler :=
  match ev with
  | StartAll now => start_all_reminders fromisoformat now s
  | StopAll => stop_all_reminders s
  | Expire id =>
      match threads s !! id with
      | Some t =>
          match status t with
          | Waiting => set_status id Running s
          | _ => s
          end
      | None => s
      end
  | Call id e =>
      match threads s !! id with
      | Some t =>
          match status t with
          | Running =>
              let '(s1, returned) := callback fromisoformat (function t) e s in
              set_status id (if returned then Finished else Died) s1
          | _ => s
          end
      | None => s
      end
  end.

Definition run (evs : list event) (s : scheduler) : scheduler :=
  List.fold_left step evs s.

End Steps.

(** Between [s] and [s'] the scheduler called the method [m] of the
    notifier, and nothing else: the presentation was invoked. *)
Definition invoked (m : notifier_method) (s s' : scheduler) : Prop :=
  notifier_calls s' = (notifier_calls s ++ [m])%list.

(** Between [s] and [s'] a reminder was presented: the scheduler called a
    method of the notifier and, in the environment [e], that call
    returned. A call that raises, as the call of a method the notifier
    does not have, presents nothing. *)
Definition presented (e : environment) (s s' : scheduler) : Prop :=
  exists m, invoked m s s' /\ notifier_raises e m = false.

(** The timers of a kind that will still call their function. *)
Definition pending (k : kind) (s : scheduler) : list timer :=
  List.filter (fun t => bool_decide (function t = k) && is_alive t) (threads s).

(** A parser for the examples: the forms [HH:MM] and [HH:MM:SS], which
    every version of [time.fromisoformat] reads this way. *)
Definition digit (c : ascii) : option Z :=
  let n := nat_of_ascii c in
  if ((48 <=? n) && (n <=? 57))%nat then Some (Z.of_nat (n - 48)) else None.

Definition two_digits (s : string) : option Z :=
  match s with
  | String a (String b EmptyString) =>
      match digit a, digit b with
      | Some x, Some y => Some (10 * x + y)
      | _, _ => None
      end
  | _ => None
  end.

Definition checked_time (h m s : Z) : option time :=
  let t := mk_time h m s 0 in if valid_time t then Some t else None.

Definition fromisoformat_hms (str : string) : option time :=
  let part i := two_digits (String.substring i 2 str) in
  let colon i := String.eqb (String.substring i 1 str) ":" in
  match String.length str with
  | 5%nat =>
      match part 0%nat, part 3%nat with
      | Some h, Some m => if colon 2%nat then checked_time h m 0 else None
      | _, _ => None
      end
  | 8%nat =>
      match part 0%nat, part 3%nat, part 6%nat with
      | Some h, Some m, Some s =>
          if colon 2%nat && colon 5%nat then checked_time h m s else None
      | _, _, _ => None
      end
  | _ => None
  end.

End Scheduler.

(** ** More of the [datetime] module: equality of dates, [timedelta(days=n)] *)

Module Calendar.
Import Datetime.

(** [d1 == d2] on dates. *)
Definition date_eqb (d1 d2 : date) : bool :=
  (year d1 =? year d2) && (month d1 =? month d2) && (day d1 =? day d2).

(** [dt + timedelta(days=n)]: the date [n] days later, at the same time of
    day; [OverflowError] ([None]) past the year 9999. *)
Definition plus_days (n : nat) (dt : datetime) : option datetime :=
  let d := Nat.iter n next_day (dt_date dt) in
  if valid_date d then Some (mk_datetime d (dt_time dt)) else None.

(** [datetime.min.time()] and [datetime.max.time()]. *)
Definition min_time : time := mk_time 0 0 0 0.
Definition max_time : time := mk_time 23 59 59 999999.

End Calendar.

(** ** src/utils/time_utils.py, the functions over dates

    [datetime.now()] is the argument [now]. [strptime] stands for
    [datetime.strptime(_, "%H:%M").time()], with [None] for [ValueError]. *)

Module TimeUtilsDates.
Import Datetime Calendar.

(** [is_same_day(dt1, dt2)]. *)
Definition is_same_day (dt1 dt2 : datetime) : bool :=
  date_eqb (dt_date dt1) (dt_date dt2).

(** [get_start_of_day(dt=None)]. *)
Definition get_start_of_day (dt : option datetime) (now : datetime) : datetime :=
  let dt := match dt with Some dt => dt | None => now end in
  combine (dt_date dt) min_time.

(** [get_end_of_day(dt=None)]. *)
Definition get_end_of_day (dt : option datetime) (now : datetime) : datetime :=
  let dt := match dt with Some dt => dt | None => now end in
  combine (dt_date dt) max_time.

(** [is_weekend()]. *)
Definition is_weekend (now : datetime) : bool := 5 <=? weekday (dt_date now).

(** [get_next_workday()]; [None] when the addition overflows. *)
Definition get_next_workday (now : datetime) : option datetime :=
  let today := now in
  if weekday (dt_date today) =? 4 then plus_days 3 today
  else if weekday (dt_date today) =? 5 then plus_days 2 today
  else if weekday (dt_date today) =? 6 then plus_days 1 today
  else plus_days 1 today.

(** [minutes_until_time(target_time_str)]; [None] when the addition of a
    day overflows, which [except ValueError] does not catch. *)
Definition minutes_until_time (strptime : string -> option time)
    (target_time_str : string) (now : datetime) : option Z :=
  match strptime target_time_str with
  | None => Some 0
  | Some target_time =>
      let target_datetime := combine (dt_date now) target_time in
      let target_datetime :=
        if datetime_le target_datetime now
        then plus_days 1 target_datetime
        else Some target_datetime in
      match target_datetime with
      | None => None
      | Some target_datetime =>
          let diff := datetime_sub target_datetime now in
          Some (Z.quot diff 60000000)
      end
  end.

End TimeUtilsDates.

(** ** src/db/database.py, the queries

    The [date] argument, a string [YYYY-MM-DD], is the [date] it writes;
    [DATE(start_time)] is the date of the stored timestamp. *)

Module DatabaseQueries.
Import Datetime Calendar Database.

(** The [duration_seconds] of the rows the WHERE clause of
    [get_total_screen_time] selects. *)
Definition selected_durations (date : date) (db : database) : list Z :=
  omap (fun r =>
          if date_eqb (dt_date (row_start_time r)) date
          then row_duration_seconds r else None)
       (app_usage db).

(** [SUM(duration_seconds)]: [NULL] over no row. *)
Definition sql_sum (l : list Z) : option Z :=
  match l with
  | [] => None
  | _ => Some (foldr Z.add 0 l)
  end.

(** [get_total_screen_time(date)]: [result[0] if result[0] else 0]. *)
Definition get_total_screen_time (date : date) (db : database) : Z :=
  match sql_sum (selected_durations date db) with
  | Some total => if Py.truthy_int total then total else 0
  | None => 0
  end.

(** [get_active_session()]: of the rows without [end_time], the one with
    the largest id (ORDER BY id DESC LIMIT 1). *)
Definition get_active_session (db : database)
    : option (Z * string * datetime) :=
  let latest :=
    foldl (fun best r =>
             match best with
             | Some b => if row_id b <? row_id r then Some r else Some b
             | None => Some r
             end) None (open_rows db) in
  match latest with
  | Some r => Some (row_id r, row_app_name r, row_start_time r)
  | None => None
  end.

(** A table as SQLite keeps it: the AUTOINCREMENT counter is not
    negative, the ids are distinct, positive, and not above the counter. *)
Definition well_formed (db : database) : Prop :=
  0 <= last_id db /\
  NoDup (row_id <$> app_usage db) /\
  Forall (fun r => 1 <= row_id r <= last_id db) (app_usage db).

(** A row is open, or closed with the whole seconds between its two
    timestamps, at least one. *)
Definition row_consistent (r : usage_row) : Prop :=
  match row_end_time r, row_duration_seconds r with
  | None, None => True
  | Some end_time, Some duration =>
      duration = total_seconds_int (datetime_sub end_time (row_start_time r)) /\
      1 <= duration
  | _, _ => False
  end.

End DatabaseQueries.

(** ** src/tracker/activity_tracker.py, the state a run keeps *)

Module TrackerInvariant.
Import Datetime Database ActivityTracker.

(** The three attributes of the open session are set together, and then
    the row of [current_session_id] is in the table, open, with the name
    and the start time the tracker holds. *)
Definition session_row_open (t : tracker) : Prop :=
  match current_session_id t, current_app t, session_start_time t with
  | None, None, None => True
  | Some id, Some app, Some start =>
      In (mk_row id app start None None) (app_usage (db_manager t))
  | _, _, _ => False
  end.

(** What every event of the tracker keeps of the open session. *)
Definition session_invariant (t : tracker) : Prop :=
  DatabaseQueries.well_formed (db_manager t) /\ session_row_open t.

(** What every event of the tracker keeps. *)
Definition tracker_invariant (t : tracker) : Prop :=
  DatabaseQueries.well_formed (db_manager t) /\
  Forall DatabaseQueries.row_consistent (app_usage (db_manager t)) /\
  session_row_open t.

End TrackerInvariant.

(** ** src/tracker/scheduler.py, [update_settings] and the state a run keeps *)

Module SchedulerSettings.
Import Datetime Scheduler.

(** [old.update(new)] for one key. *)
Definition update_key {A} (old new : option A) : option A :=
  match new with Some v => Some v | None => old end.

(** [self.settings.update(new_settings)]. *)
Definition update (old new : settings) : settings :=
  mk_settings
    (update_key (break_interval old) (break_interval new))
    (update_key (hydration_interval old) (hydration_interval new))
    (update_key (inspiration_interval old) (inspiration_interval new))
    (update_key (daily_summary_time old) (daily_summary_time new))
    (update_key (work_start_time old) (work_start_time new))
    (update_key (work_end_time old) (work_end_time new))
    (update_key (notifications_enabled old) (notifications_enabled new))
    (update_key (work_days_only old) (work_days_only new)).

(** [update_settings(new_settings)]; [now] is the clock after the
    [time.sleep(1)] of the restart. *)
Definition update_settings (fromisoformat : string -> option time)
    (new_settings : settings) (now : datetime) (s : scheduler) : scheduler :=
  let s := mk_scheduler (update (settings_of s) new_settings)
                        (is_modal_notifier s) (timers s) (is_running s)
                        (start_time s) (threads s) (notifier_calls s) in
  if is_running s
  then start_all_reminders fromisoformat now (stop_all_reminders s)
  else s.

(** Every entry of [self.timers] is under the key of a kind and refers to
    a timer that exists and calls the callback of that kind. *)
Definition timers_well_formed (s : scheduler) : Prop :=
  forall name id,
    timers s !! name = Some id ->
    exists k t,
      name = kind_name k /\ threads s !! id = Some t /\ function t = k.

(** The timers [self.timers] refers to. *)
Definition registered_ids (s : scheduler) : list nat :=
  (map_to_list (timers s)).*2.

(** Every timer that is still alive is in [self.timers]. *)
Definition all_registered (s : scheduler) : bool :=
  forallb (fun it : nat * timer =>
             negb (is_alive it.2) || bool_decide (it.1 ∈ registered_ids s))
          (imap (fun id t => (id, t)) (threads s)).

(** No callback is being called. *)
Definition none_in_flight (s : scheduler) : bool :=
  forallb (fun t => match status t with Running => false | _ => true end)
          (threads s).

(** The threads of [s] are the first threads of [s']: timers are added,
    never removed. *)
Definition extends (s s' : scheduler) : Prop :=
  exists l, threads s' = (threads s ++ l)%list.

(** The events of the timer threads. *)
Definition timer_event (ev : event) : bool :=
  match ev with
  | Expire _ | Call _ _ => true
  | StartAll _ | StopAll => false
  end.

End SchedulerSettings.

(** ** Inputs of the examples *)

Module SchedulerExamples.
Import Datetime Scheduler.

(** [ModalNotificationManager] of [modal_notifier.py], the notifier
    [main.py] gives the scheduler: it has [show_modal_notification] and
    the [show_*] methods, and none of the [send_*] methods, so calling
    one raises [AttributeError]. *)
Definition modal_manager_raises (m : notifier_method) : bool :=
  match m with
  | send_break_reminder | send_hydration_reminder
  | send_inspiration_reminder | send_daily_summary => true
  | _ => false
  end.

(** A notifier whose calls all return. *)
Definition never_raises (m : notifier_method) : bool := false.

(** The scheduler [main.py] builds, with the settings file as
    [load_settings] creates it. *)
Definition modal_scheduler : scheduler := init true created_settings.

(** The scheduler over a [WorkBuddyNotifier], which has no
    [show_modal_notification]. *)
Definition plain_scheduler : scheduler := init false created_settings.

(** 2024-01-09 is a Tuesday, 2024-01-13 a Saturday, 2024-01-31 the last
    day of its month. *)
Definition tuesday (h m : Z) : datetime := at_ 2024 1 9 h m 0.
Definition saturday (h m : Z) : datetime := at_ 2024 1 13 h m 0.
Definition january_31 (h m : Z) : datetime := at_ 2024 1 31 h m 0.

End SchedulerExamples.

(** ** Statements *)

(** *** Time utilities *)

(** C10. For every nonnegative number of seconds [n], [seconds_to_hms n]
    is a triple [(hours, minutes, secs)] with
    [hours * 3600 + minutes * 60 + secs = n], [0 <= minutes < 60] and
    [0 <= secs < 60]. *)
Theorem seconds_to_hms_decomposes (n : Z) (Hn : 0 <= n) :
  let '(hours, minutes, secs) := TimeUtils.seconds_to_hms n in
  hours * 3600 + minutes * 60 + secs = n /\
  0 <= minutes < 60 /\ 0 <= secs < 60.
Proof.
  unfold TimeUtils.seconds_to_hms.
  Z.div_mod_to_equations. lia.
Qed.

Lemma seconds_to_hms_decomposes_witness :
  0 <= 3661 /\
  let '(hours, minutes, secs) := TimeUtils.seconds_to_hms 3661 in
  hours * 3600 + minutes * 60 + secs = 3661 /\
  0 <= minutes < 60 /\ 0 <= secs < 60.
Proof.
  split; [lia | apply (seconds_to_hms_decomposes 3661); lia].
Defined.

(** *** The session tracker *)

Section TrackerFacts.
Import Datetime Database ActivityTracker.

Lemma end_session_clears now t : holds_session (end_session now t) = false.
Proof. reflexivity. Qed.

Lemma end_session_last_id now t :
  last_id (db_manager (end_session now t)) = last_id (db_manager t).
Proof.
  unfold end_session; simpl.
  destruct (current_session_id t), (session_start_time t); try reflexivity.
  destruct (Py.truthy_int _); try reflexivity.
  destruct (1 <=? _); reflexivity.
Qed.

Lemma end_session_row_count now t :
  length (app_usage (db_manager (end_session now t))) =
  length (app_usage (db_manager t)).
Proof.
  unfold end_session; simpl.
  destruct (current_session_id t), (session_start_time t); try reflexivity.
  destruct (Py.truthy_int _); try reflexivity.
  destruct (1 <=? _); try reflexivity.
  simpl. now rewrite length_map.
Qed.

Lemma start_session_rows app now t :
  app_usage (db_manager (start_session app now t)) =
  (app_usage (db_manager t) ++
   [mk_row (last_id (db_manager t) + 1) app now None None])%list.
Proof. reflexivity. Qed.

Lemma truthy_opt_str_Some app :
  app <> "" -> Py.truthy_opt_str (Some app) = true.
Proof.
  intros Hne. unfold Py.truthy_opt_str, Py.truthy_str.
  destruct (String.eqb_spec app ""); [contradiction | reflexivity].
Qed.

(** An iteration either leaves the tracker as it is, or closes, or opens
    after closing, or opens without closing; the last only when
    [current_app] is [None] or empty. *)
Lemma track_activity_iteration_cases o t :
  track_activity_iteration o t = t \/
  track_activity_iteration o t = end_session (now o) t \/
  (exists app,
      track_activity_iteration o t =
      start_session app (now o) (end_session (now o) t)) \/
  (exists app,
      Py.truthy_opt_str (current_app t) = false /\
      track_activity_iteration o t = start_session app (now o) t).
Proof.
  unfold track_activity_iteration.
  destruct (is_system_idle o t).
  - destruct (Py.truthy_opt_str (current_app t)); auto.
  - destruct (window_info o) as [[title|] [process|]];
      try (destruct (Py.truthy_opt_str (current_app t)); auto; fail).
    destruct (Py.truthy_str title && Py.truthy_str process).
    + destruct (negb _); [|auto].
      destruct (Py.truthy_opt_str (current_app t)) eqn:Hc; [|eauto 6].
      right; right; left; eauto.
    + destruct (Py.truthy_opt_str (current_app t)); auto.
Qed.

End TrackerFacts.

(** C1 fails on the code. [end_session] says "Only log if duration is
    meaningful (at least 1 second)", but [start_session] has logged the
    session when it opened. After a session of half a second the tracker
    holds no session, and its row is in [app_usage], without end time
    and duration; [update_app_usage] was not called and nothing removes
    the row, which [get_active_session] returns as the active session. *)
Theorem short_session_row_persisted :
  let ts := Datetime.at_ 2024 1 10 10 0 0 in
  let te := Datetime.mk_datetime (Datetime.mk_date 2024 1 10)
                                 (Datetime.mk_time 10 0 0 500000) in
  let t := ActivityTracker.end_session te
             (ActivityTracker.start_session "editor" ts
                (ActivityTracker.init Database.empty 5)) in
  Datetime.total_seconds_int (Datetime.datetime_sub te ts) < 1 /\
  ActivityTracker.holds_session t = false /\
  Database.rows_of "editor" ts (ActivityTracker.db_manager t) =
    [Database.mk_row 1 "editor" ts None None] /\
  DatabaseQueries.get_active_session (ActivityTracker.db_manager t) =
    Some (1, "editor", ts).
Proof. vm_compute. repeat split; reflexivity. Qed.

(** Beside C1: in general, when a session is closed less than one second
    after it was opened, [end_session] hands nothing to the database:
    [update_app_usage] is not called, so the table is as [start_session]
    left it and the row of the session keeps [end_time] and
    [duration_seconds] absent; the open state is cleared. *)
Theorem short_session_not_updated
    (t : ActivityTracker.tracker) (app : string) (ts te : Datetime.datetime)
    (Hshort : Datetime.total_seconds_int (Datetime.datetime_sub te ts) < 1) :
  let t1 := ActivityTracker.start_session app ts t in
  let t2 := ActivityTracker.end_session te t1 in
  ActivityTracker.db_manager t2 = ActivityTracker.db_manager t1 /\
  ActivityTracker.holds_session t2 = false /\
  Database.app_usage (ActivityTracker.db_manager t2) =
    (Database.app_usage (ActivityTracker.db_manager t) ++
     [Database.mk_row (Database.last_id (ActivityTracker.db_manager t) + 1)
                      app ts None None])%list.
Proof.
  assert (Hdb :
    ActivityTracker.db_manager
      (ActivityTracker.end_session te (ActivityTracker.start_session app ts t)) =
    ActivityTracker.db_manager (ActivityTracker.start_session app ts t)).
  { unfold ActivityTracker.end_session, ActivityTracker.start_session; simpl.
    destruct (Py.truthy_int _); [|reflexivity].
    destruct (Z.leb_spec 1 (Datetime.total_seconds_int (Datetime.datetime_sub te ts)));
      [lia | reflexivity]. }
  cbv zeta. rewrite Hdb. repeat split.
Qed.

Lemma short_session_not_updated_witness :
  let ts := Datetime.at_ 2024 1 10 10 0 0 in
  let te := Datetime.mk_datetime (Datetime.mk_date 2024 1 10)
                                 (Datetime.mk_time 10 0 0 999999) in
  let t := ActivityTracker.init Database.empty 5 in
  let t1 := ActivityTracker.start_session "editor" ts t in
  let t2 := ActivityTracker.end_session te t1 in
  Datetime.total_seconds_int (Datetime.datetime_sub te ts) < 1 /\
  ActivityTracker.db_manager t2 = ActivityTracker.db_manager t1 /\
  ActivityTracker.holds_session t2 = false /\
  Database.app_usage (ActivityTracker.db_manager t2) =
    (Database.app_usage (ActivityTracker.db_manager t) ++
     [Database.mk_row (Database.last_id (ActivityTracker.db_manager t) + 1)
                      "editor" ts None None])%list.
Proof.
  split; [vm_compute; reflexivity|].
  apply (short_session_not_updated
           (ActivityTracker.init Database.empty 5) "editor"
           (Datetime.at_ 2024 1 10 10 0 0)
           (Datetime.mk_datetime (Datetime.mk_date 2024 1 10)
                                 (Datetime.mk_time 10 0 0 999999))).
  vm_compute. reflexivity.
Defined.

(** C2 fails on the code. [normalize_app_name] gives the empty string for
    the process [.exe] with the window title [ - Google Chrome]; the
    session opened under that name is not seen by [if self.current_app:].
    Ten seconds later another window is in front: the iteration is
    [start_session] on the tracker that still holds the first session,
    [end_session] is not called, and both rows stay open. *)
Theorem empty_name_session_not_closed :
  let o1 := ActivityTracker.mk_obs (Datetime.at_ 2024 1 10 10 0 0) 0
              (Some " - Google Chrome", Some ".exe") in
  let o2 := ActivityTracker.mk_obs (Datetime.at_ 2024 1 10 10 0 10) 0
              (Some "Doc", Some "notepad.exe") in
  let t1 := ActivityTracker.run
              [ActivityTracker.StartTracking; ActivityTracker.Poll o1]
              (ActivityTracker.init Database.empty 5) in
  let t2 := ActivityTracker.step t1 (ActivityTracker.Poll o2) in
  ActivityTracker.normalize_app_name " - Google Chrome" ".exe" = "" /\
  ActivityTracker.holds_session t1 = true /\
  ActivityTracker.session_start_time t1 = Some (ActivityTracker.now o1) /\
  t2 = ActivityTracker.start_session "notepad (Doc)" (ActivityTracker.now o2) t1 /\
  Database.open_rows (ActivityTracker.db_manager t2) =
    [Database.mk_row 1 "" (ActivityTracker.now o1) None None;
     Database.mk_row 2 "notepad (Doc)" (ActivityTracker.now o2) None None].
Proof. vm_compute. repeat split; reflexivity. Qed.

(** X18. Beside C2: when the name in [current_app] is not empty, an iteration
    that opens a session closes the open one first. *)
Lemma nonempty_session_closed_before_opening
    (o : ActivityTracker.observation) (t : ActivityTracker.tracker)
    (app : string)
    (Happ : ActivityTracker.current_app t = Some app) (Hne : app <> "") :
  let t' := ActivityTracker.track_activity_iteration o t in
  t' = t \/
  t' = ActivityTracker.end_session (ActivityTracker.now o) t \/
  exists app', t' = ActivityTracker.start_session app' (ActivityTracker.now o)
                      (ActivityTracker.end_session (ActivityTracker.now o) t).
Proof.
  cbv zeta.
  destruct (track_activity_iteration_cases o t) as [H|[H|[H|[app' [Hf H]]]]]; auto.
  rewrite Happ, truthy_opt_str_Some in Hf by assumption. discriminate.
Qed.

(** C7, as stated, fails: at an idle time equal to the threshold the
    system does not count as idle; with the same window in front the open
    session stays open. *)
Lemma idle_at_threshold_keeps_session :
  let o1 := ActivityTracker.mk_obs (Datetime.at_ 2024 1 10 10 0 0) 0
              (Some "Doc", Some "notepad.exe") in
  let o2 := ActivityTracker.mk_obs (Datetime.at_ 2024 1 10 10 5 0) 300000
              (Some "Doc", Some "notepad.exe") in
  let t1 := ActivityTracker.run
              [ActivityTracker.StartTracking; ActivityTracker.Poll o1]
              (ActivityTracker.init Database.empty 5) in
  let t2 := ActivityTracker.step t1 (ActivityTracker.Poll o2) in
  ActivityTracker.idle_threshold t1 * 1000 <= ActivityTracker.idle_millis o2 /\
  ActivityTracker.current_app t1 = Some "notepad (Doc)" /\
  t2 = t1 /\
  ActivityTracker.holds_session t2 = true.
Proof. vm_compute. repeat split; try reflexivity. discriminate. Qed.

(** C7, amended. In every iteration in which the observed idle time is
    greater than the idle threshold and a session with a non-empty name
    is open, the iteration is [end_session]: the open state is cleared
    and no row is inserted, whatever window is observed. *)
Theorem idle_poll_closes_session
    (o : ActivityTracker.observation) (t : ActivityTracker.tracker)
    (app : string)
    (Hidle : ActivityTracker.idle_threshold t * 1000 < ActivityTracker.idle_millis o)
    (Happ : ActivityTracker.current_app t = Some app) (Hne : app <> "") :
  let t' := ActivityTracker.track_activity_iteration o t in
  t' = ActivityTracker.end_session (ActivityTracker.now o) t /\
  ActivityTracker.holds_session t' = false /\
  Database.last_id (ActivityTracker.db_manager t') =
    Database.last_id (ActivityTracker.db_manager t) /\
  length (Database.app_usage (ActivityTracker.db_manager t')) =
    length (Database.app_usage (ActivityTracker.db_manager t)).
Proof.
  assert (H : ActivityTracker.track_activity_iteration o t =
              ActivityTracker.end_session (ActivityTracker.now o) t).
  { unfold ActivityTracker.track_activity_iteration, ActivityTracker.is_system_idle.
    destruct (Z.ltb_spec (ActivityTracker.idle_threshold t * 1000)
                         (ActivityTracker.idle_millis o)); [|lia].
    now rewrite Happ, truthy_opt_str_Some. }
  cbv zeta. rewrite H.
  split; [reflexivity|]. split; [apply end_session_clears|].
  split; [apply end_session_last_id | apply end_session_row_count].
Qed.

Lemma idle_poll_closes_session_witness :
  let t := ActivityTracker.start_session "notepad (Doc)"
             (Datetime.at_ 2024 1 10 10 0 0)
             (ActivityTracker.init Database.empty 5) in
  let o := ActivityTracker.mk_obs (Datetime.at_ 2024 1 10 10 6 0) 300001
             (Some "Doc", Some "notepad.exe") in
  let t' := ActivityTracker.track_activity_iteration o t in
  ActivityTracker.idle_threshold t * 1000 < ActivityTracker.idle_millis o /\
  ActivityTracker.current_app t = Some "notepad (Doc)" /\
  t' = ActivityTracker.end_session (ActivityTracker.now o) t /\
  ActivityTracker.holds_session t' = false /\
  Database.last_id (ActivityTracker.db_manager t') =
    Database.last_id (ActivityTracker.db_manager t) /\
  length (Database.app_usage (ActivityTracker.db_manager t')) =
    length (Database.app_usage (ActivityTracker.db_manager t)).
Proof.
  split; [vm_compute; reflexivity|]. split; [reflexivity|].
  apply (idle_poll_closes_session
           (ActivityTracker.mk_obs (Datetime.at_ 2024 1 10 10 6 0) 300001
              (Some "Doc", Some "notepad.exe"))
           (ActivityTracker.start_session "notepad (Doc)"
              (Datetime.at_ 2024 1 10 10 0 0)
              (ActivityTracker.init Database.empty 5))
           "notepad (Doc)").
  - vm_compute. reflexivity.
  - reflexivity.
  - discriminate.
Defined.

(** *** The reminder scheduler *)

Section SchedulerFacts.
Import Datetime Scheduler.

Variable fromisoformat : string -> option time.

Lemma timer_of_arm_same k now i s :
  timer_of (arm k now i s) (kind_name k) = Some (mk_timer k now i Waiting).
Proof.
  unfold timer_of, arm; simpl.
  rewrite lookup_insert_eq.
  now rewrite list_lookup_middle.
Qed.

Lemma timer_of_arm_other k now i s name t :
  kind_name k <> name ->
  timer_of s name = Some t ->
  timer_of (arm k now i s) name = Some t.
Proof.
  unfold timer_of, arm; simpl. intros Hne H.
  rewrite lookup_insert_ne by assumption.
  destruct (timers s !! name) as [id|]; [|discriminate].
  now apply lookup_app_l_Some.
Qed.


(** [schedule_daily_summary] arms a timer or does nothing. *)
Lemma schedule_daily_summary_cases now s :
  schedule_daily_summary fromisoformat now s = s \/
  exists delay,
    schedule_daily_summary fromisoformat now s = arm daily_summary now delay s.
Proof.
  unfold schedule_daily_summary.
  destruct (fromisoformat _) as [t|]; [|now left].
  destruct (datetime_le _ _).
  - destruct (replace_day _ _); [right; eauto | now left].
  - right; eauto.
Qed.

Lemma schedule_cases k now s :
  schedule fromisoformat k now s = s \/
  exists delay, schedule fromisoformat k now s = arm k now delay s.
Proof.
  destruct k; try (right; eexists; reflexivity).
  apply schedule_daily_summary_cases.
Qed.


Lemma schedule_daily_summary_settings now s :
  settings_of (schedule_daily_summary fromisoformat now s) = settings_of s /\
  is_modal_notifier (schedule_daily_summary fromisoformat now s) =
    is_modal_notifier s /\
  is_running (schedule_daily_summary fromisoformat now s) = is_running s /\
  start_time (schedule_daily_summary fromisoformat now s) = start_time s.
Proof.
  destruct (schedule_daily_summary_cases now s) as [->|[delay ->]];
    repeat split.
Qed.

Lemma timer_of_schedule_daily_summary_other now s name t :
  "daily_summary" <> name ->
  timer_of s name = Some t ->
  timer_of (schedule_daily_summary fromisoformat now s) name = Some t.
Proof.
  intros Hne H.
  destruct (schedule_daily_summary_cases now s) as [->|[delay ->]];
    [assumption | now apply timer_of_arm_other].
Qed.



End SchedulerFacts.

(** C8, as stated, fails: with [work_start_time] malformed and
    [work_end_time] 18:00, the check at 20:00 says "work hours"; with the
    default 09:00 in place of the malformed value it says "not work
    hours". *)
Lemma malformed_start_is_not_defaulted :
  let malformed :=
    Scheduler.mk_settings (Some 45) (Some 120) (Some 180) (Some "17:00")
      (Some "9 o'clock") (Some "18:00") (Some true) (Some true) in
  let defaulted :=
    Scheduler.mk_settings (Some 45) (Some 120) (Some 180) (Some "17:00")
      (Some "09:00") (Some "18:00") (Some true) (Some true) in
  let now := SchedulerExamples.tuesday 20 0 in
  Scheduler.fromisoformat_hms "9 o'clock" = None /\
  Scheduler.is_work_hours Scheduler.fromisoformat_hms now
    (Scheduler.init true malformed) = true /\
  Scheduler.is_work_hours Scheduler.fromisoformat_hms now
    (Scheduler.init true defaulted) = false.
Proof. vm_compute. repeat split; reflexivity. Qed.

(** C8, amended. When [work_start_time] or [work_end_time] is malformed,
    the check of the work hours does not fail: it answers [True], so the
    work hours do not restrict the reminders for that evaluation, and
    [should_send_reminder] depends on the master switch and the work day
    only. *)
Theorem malformed_work_hours_allow
    (fromisoformat : string -> option Datetime.time)
    (now : Datetime.datetime) (s : Scheduler.scheduler)
    (Hbad :
       fromisoformat
         (Scheduler.get (Scheduler.work_start_time (Scheduler.settings_of s)) "09:00")
         = None \/
       fromisoformat
         (Scheduler.get (Scheduler.work_end_time (Scheduler.settings_of s)) "18:00")
         = None) :
  Scheduler.is_work_hours fromisoformat now s = true /\
  Scheduler.should_send_reminder fromisoformat now s =
    Scheduler.get (Scheduler.notifications_enabled (Scheduler.settings_of s)) true
    && Scheduler.is_work_day now s.
Proof.
  assert (H : Scheduler.is_work_hours fromisoformat now s = true).
  { unfold Scheduler.is_work_hours.
    destruct Hbad as [Hbad | Hbad]; rewrite Hbad; [reflexivity|].
    destruct (fromisoformat (Scheduler.get (Scheduler.work_start_time _) _));
      reflexivity. }
  split; [assumption|].
  unfold Scheduler.should_send_reminder. rewrite H.
  destruct (Scheduler.get _ true); simpl; [|reflexivity].
  now destruct (Scheduler.is_work_day now s).
Qed.

Lemma malformed_work_hours_allow_witness :
  let s :=
    Scheduler.init true
      (Scheduler.mk_settings (Some 45) (Some 120) (Some 180) (Some "17:00")
         (Some "09:00") (Some "6 pm") (Some true) (Some true)) in
  let now := SchedulerExamples.tuesday 20 0 in
  Scheduler.fromisoformat_hms "6 pm" = None /\
  Scheduler.is_work_hours Scheduler.fromisoformat_hms now s = true /\
  Scheduler.should_send_reminder Scheduler.fromisoformat_hms now s =
    Scheduler.get (Scheduler.notifications_enabled (Scheduler.settings_of s)) true
    && Scheduler.is_work_day now s.
Proof.
  split; [reflexivity|].
  apply (malformed_work_hours_allow Scheduler.fromisoformat_hms
           (SchedulerExamples.tuesday 20 0)
           (Scheduler.init true
              (Scheduler.mk_settings (Some 45) (Some 120) (Some 180)
                 (Some "17:00") (Some "09:00") (Some "6 pm") (Some true)
                 (Some true)))).
  right. reflexivity.
Defined.




(** The example of C6: work hours 09:00 to 18:00, work days only. The
    break reminder that fires on Tuesday 10:00 calls the notifier; the one
    that fires on Saturday 10:00 does not. *)
Example break_on_tuesday_and_saturday :
  let s := SchedulerExamples.modal_scheduler in
  let fire now :=
    (Scheduler.callback Scheduler.fromisoformat_hms Scheduler.break
       (Scheduler.mk_env now SchedulerExamples.never_raises false) s).1 in
  Scheduler.notifier_calls (fire (SchedulerExamples.tuesday 10 0)) =
    [Scheduler.show_break_reminder] /\
  Scheduler.notifier_calls (fire (SchedulerExamples.saturday 10 0)) = [].
Proof. vm_compute. split; reflexivity. Qed.

(** Beside C6: an eligible firing whose call raises presents nothing. Over
    the notifier of [main.py], which has no [send_inspiration_reminder],
    the inspiration reminder of Tuesday 10:00 is invoked and not
    presented. *)
Example inspiration_invoked_not_presented :
  let s := SchedulerExamples.modal_scheduler in
  let e := Scheduler.mk_env (SchedulerExamples.tuesday 10 0)
             SchedulerExamples.modal_manager_raises false in
  let s' := (Scheduler.callback Scheduler.fromisoformat_hms
               Scheduler.inspiration e s).1 in
  Scheduler.should_send_reminder Scheduler.fromisoformat_hms
    (Scheduler.env_now e) s = true /\
  Scheduler.invoked Scheduler.send_inspiration_reminder s s' /\
  ~ Scheduler.presented e s s'.
Proof.
  split; [reflexivity|]. split; [reflexivity|].
  intros (m & Hm & Hq). unfold Scheduler.invoked in Hm.
  vm_compute in Hm. injection Hm as <-. discriminate.
Qed.

(** C3 fails on the code: only [send_summary] has a [try] block. With
    the notifier of [main.py], the inspiration reminder armed at 07:00
    fires on Tuesday 10:00, inside the work hours; the call of
    [send_inspiration_reminder] raises, the exception leaves
    [send_reminder] before its last statement, and no timer of that kind
    is pending afterwards. *)
Theorem presentation_failure_prevents_rearming :
  let parse := Scheduler.fromisoformat_hms in
  let e := Scheduler.mk_env (SchedulerExamples.tuesday 10 0)
             SchedulerExamples.modal_manager_raises false in
  let s1 := Scheduler.run parse [Scheduler.StartAll (SchedulerExamples.tuesday 7 0)]
              SchedulerExamples.modal_scheduler in
  let s2 := Scheduler.run parse [Scheduler.Expire 2; Scheduler.Call 2 e] s1 in
  Scheduler.timers s1 !! "inspiration" = Some 2%nat /\
  length (Scheduler.pending Scheduler.inspiration s1) = 1%nat /\
  Scheduler.should_send_reminder parse (Scheduler.env_now e) s1 = true /\
  Scheduler.notifier_calls s2 = [Scheduler.send_inspiration_reminder] /\
  Scheduler.status <$> Scheduler.timer_of s2 "inspiration" = Some Scheduler.Died /\
  Scheduler.pending Scheduler.inspiration s2 = [].
Proof. vm_compute. repeat split; reflexivity. Qed.

(** Beside C3: in general, when the notifier raises at an eligible firing
    of a kind other than the daily summary, the callback arms nothing. *)
Lemma send_reminder_raise_arms_nothing
    (fromisoformat : string -> option Datetime.time)
    (k : Scheduler.kind) (e : Scheduler.environment) (s : Scheduler.scheduler)
    (Heligible :
       Scheduler.should_send_reminder fromisoformat (Scheduler.env_now e) s = true)
    (Hraises : Scheduler.notifier_raises e (Scheduler.reminder_method k s) = true) :
  Scheduler.send_reminder fromisoformat k e s =
    (Scheduler.notify (Scheduler.reminder_method k s) s, false).
Proof. unfold Scheduler.send_reminder. now rewrite Heligible, Hraises. Qed.

(** Beside C3: the callback of the daily summary always reaches its last
    statement, whatever the notifier and the database do. *)
Lemma send_summary_always_reschedules
    (fromisoformat : string -> option Datetime.time)
    (e : Scheduler.environment) (s : Scheduler.scheduler) :
  exists s1,
    Scheduler.threads s1 = Scheduler.threads s /\
    Scheduler.callback fromisoformat Scheduler.daily_summary e s =
      (Scheduler.schedule_daily_summary fromisoformat (Scheduler.env_now e) s1, true).
Proof.
  simpl. unfold Scheduler.send_summary.
  destruct (Scheduler.db_raises e); eexists; (split; [|reflexivity]); reflexivity.
Qed.

(** C4 fails on the code: the callbacks do not look at [is_running]. The
    wait of the break timer ends, [stop_all_reminders] runs and returns
    while the callback is in flight, then the callback runs its last
    statement: a new break timer is waiting in a stopped scheduler. It
    expires in turn, and the notifier is called again. *)
Theorem in_flight_callback_rearms_after_stop :
  let parse := Scheduler.fromisoformat_hms in
  let e now := Scheduler.mk_env now SchedulerExamples.never_raises false in
  let s1 := Scheduler.run parse
              [Scheduler.StartAll (SchedulerExamples.tuesday 9 15);
               Scheduler.Expire 0;
               Scheduler.StopAll] SchedulerExamples.modal_scheduler in
  let s2 := Scheduler.step parse s1
              (Scheduler.Call 0 (e (SchedulerExamples.tuesday 10 0))) in
  let s3 := Scheduler.run parse
              [Scheduler.Expire 7;
               Scheduler.Call 7 (e (SchedulerExamples.tuesday 10 45))] s2 in
  Scheduler.is_running s1 = false /\
  Scheduler.timers s1 = ∅ /\
  Scheduler.is_running s2 = false /\
  Scheduler.timer_of s2 "break" =
    Some (Scheduler.mk_timer Scheduler.break (SchedulerExamples.tuesday 10 0)
            (Scheduler.seconds (45 * 60)) Scheduler.Waiting) /\
  Scheduler.is_running s3 = false /\
  Scheduler.notifier_calls s3 =
    [Scheduler.show_break_reminder; Scheduler.show_break_reminder] /\
  length (Scheduler.pending Scheduler.break s3) = 1%nat.
Proof. vm_compute. repeat split; reflexivity. Qed.

(** Beside C4: in general, the callback of a kind other than the daily
    summary arms a timer whenever the notifier does not raise, whether the
    scheduler is running or not. *)
Lemma send_reminder_rearms_when_stopped
    (fromisoformat : string -> option Datetime.time)
    (k : Scheduler.kind) (e : Scheduler.environment) (s : Scheduler.scheduler)
    (Hk : k <> Scheduler.daily_summary)
    (Hquiet : Scheduler.notifier_raises e (Scheduler.reminder_method k s) = false) :
  Scheduler.timer_of (Scheduler.send_reminder fromisoformat k e s).1
                     (Scheduler.kind_name k) =
    Some (Scheduler.mk_timer k (Scheduler.env_now e)
            (Scheduler.seconds (Scheduler.reminder_interval k s)) Scheduler.Waiting).
Proof.
  unfold Scheduler.send_reminder. rewrite Hquiet.
  destruct (Scheduler.should_send_reminder _ _ _); simpl;
    destruct k; try contradiction; apply timer_of_arm_same.
Qed.

(** C5 fails on the code: "tomorrow" is [replace(day=day + 1)], which
    raises on the last day of a month; the [except] clause swallows the
    error and no timer is armed. On January 31 at 18:00, with the summary
    at 17:00, [schedule_daily_summary] changes nothing; and the summary
    that fires at 17:00 that day is the last one. *)
Theorem daily_summary_not_armed_at_month_end :
  let parse := Scheduler.fromisoformat_hms in
  let s := SchedulerExamples.plain_scheduler in
  let s1 := Scheduler.schedule_daily_summary parse
              (SchedulerExamples.january_31 18 0) s in
  let fired := Scheduler.run parse
                 [Scheduler.StartAll (SchedulerExamples.january_31 9 0);
                  Scheduler.Expire 3;
                  Scheduler.Call 3
                    (Scheduler.mk_env (SchedulerExamples.january_31 17 0)
                       SchedulerExamples.never_raises false)] s in
  Datetime.valid_datetime (SchedulerExamples.january_31 18 0) = true /\
  Datetime.replace_day (SchedulerExamples.january_31 17 0) 32 = None /\
  s1 = s /\
  Scheduler.timer_of s1 "daily_summary" = None /\
  Scheduler.notifier_calls fired = [Scheduler.send_daily_summary] /\
  Scheduler.pending Scheduler.daily_summary fired = [].
Proof. vm_compute. repeat split; reflexivity. Qed.

(** X17. Beside C5: what holds of the daily summary. With a date and a time of
    day that exist, the timer fires at the configured time today when
    that time has not passed; when it has passed and the day is not the
    last of its month, at the configured time tomorrow. *)
Lemma schedule_daily_summary_fire_time
    (fromisoformat : string -> option Datetime.time)
    (now : Datetime.datetime) (s : Scheduler.scheduler) (t : Datetime.time)
    (Hparse :
       fromisoformat
         (Scheduler.get (Scheduler.daily_summary_time (Scheduler.settings_of s)) "17:00")
         = Some t)
    (Htime : Datetime.valid_time t = true)
    (Hdate : Datetime.valid_date (Datetime.dt_date now) = true) :
  let today := Datetime.combine (Datetime.dt_date now) t in
  let tomorrow := Datetime.combine (Datetime.next_day (Datetime.dt_date now)) t in
  let fires :=
    Scheduler.fire_time <$>
      Scheduler.timer_of (Scheduler.schedule_daily_summary fromisoformat now s)
                         "daily_summary" in
  (Datetime.datetime_le today now = false ->
   fires = Some (Datetime.datetime_micros today)) /\
  (Datetime.datetime_le today now = true ->
   Datetime.day (Datetime.dt_date now) <
     Datetime.days_in_month (Datetime.year (Datetime.dt_date now))
                            (Datetime.month (Datetime.dt_date now)) ->
   fires = Some (Datetime.datetime_micros tomorrow)).
Proof.
  cbv zeta. unfold Scheduler.schedule_daily_summary. rewrite Hparse.
  split.
  - intros ->.
    change "daily_summary" with (Scheduler.kind_name Scheduler.daily_summary).
    rewrite timer_of_arm_same. simpl.
    unfold Scheduler.fire_time, Datetime.datetime_sub; simpl. f_equal. lia.
  - intros -> Hday.
    unfold Datetime.replace_day, Datetime.valid_datetime, Datetime.combine; simpl.
    unfold Datetime.valid_date in *; simpl.
    apply andb_prop in Hdate as [Hdate Hd2].
    apply andb_prop in Hdate as [Hdate Hd1].
    rewrite Hdate, Htime; simpl.
    destruct (Z.leb_spec 1 (Datetime.day (Datetime.dt_date now) + 1)); [|lia].
    destruct (Z.leb_spec (Datetime.day (Datetime.dt_date now) + 1)
                (Datetime.days_in_month (Datetime.year (Datetime.dt_date now))
                                        (Datetime.month (Datetime.dt_date now))));
      [|lia].
    simpl.
    change "daily_summary" with (Scheduler.kind_name Scheduler.daily_summary).
    rewrite timer_of_arm_same. simpl.
    unfold Scheduler.fire_time, Datetime.datetime_sub, Datetime.next_day; simpl.
    destruct (Z.ltb_spec (Datetime.day (Datetime.dt_date now))
                (Datetime.days_in_month (Datetime.year (Datetime.dt_date now))
                                        (Datetime.month (Datetime.dt_date now))));
      [|lia].
    f_equal. lia.
Qed.



(** *** Beyond the claims: the calendar *)

Section CalendarFacts.
Import Datetime Calendar.

Lemma days_before_year_succ y :
  days_before_year (y + 1) =
  days_before_year y + 365 + (if is_leap y then 1 else 0).
Proof.
  unfold days_before_year, is_leap. cbv zeta.
  replace (y + 1 - 1) with y by lia.
  destruct (Z.eqb_spec (y mod 4) 0), (Z.eqb_spec (y mod 100) 0),
           (Z.eqb_spec (y mod 400) 0); simpl;
    Z.div_mod_to_equations; lia.
Qed.

Lemma valid_date_bounds d :
  valid_date d = true ->
  1 <= year d <= 9999 /\ 1 <= month d <= 12 /\
  1 <= day d <= days_in_month (year d) (month d).
Proof. unfold valid_date. intros H. repeat (apply andb_prop in H as [H ?]). lia. Qed.

(** The next day has the next ordinal. *)
Lemma toordinal_next_day d :
  valid_date d = true -> toordinal (next_day d) = toordinal d + 1.
Proof.
  intros Hv. apply valid_date_bounds in Hv as (Hy & Hm & Hd).
  unfold next_day, toordinal.
  destruct (Z.ltb_spec (day d) (days_in_month (year d) (month d))); simpl; [lia|].
  assert (Hday : day d = days_in_month (year d) (month d)) by lia.
  destruct (Z.ltb_spec (month d) 12); simpl.
  - rewrite Hday. unfold days_before_month, days_in_month.
    assert (Hc : month d = 1 \/ month d = 2 \/ month d = 3 \/ month d = 4 \/
                 month d = 5 \/ month d = 6 \/ month d = 7 \/ month d = 8 \/
                 month d = 9 \/ month d = 10 \/ month d = 11) by lia.
    destruct (is_leap (year d));
      decompose [or] Hc; clear Hc;
      match goal with H : month d = _ |- _ => rewrite H end; simpl; lia.
  - assert (Hm12 : month d = 12) by lia.
    rewrite days_before_year_succ, Hday, Hm12.
    unfold days_before_month, days_in_month. simpl.
    destruct (is_leap (year d)); simpl; lia.
Qed.

Lemma valid_date_next_day d :
  valid_date d = true -> year d < 9999 -> valid_date (next_day d) = true.
Proof.
  intros Hv Hy. apply valid_date_bounds in Hv as (Hy' & Hm & Hd).
  unfold next_day.
  destruct (Z.ltb_spec (day d) (days_in_month (year d) (month d))).
  - unfold valid_date; simpl.
    repeat (apply andb_true_intro; split); apply Z.leb_le; lia.
  - destruct (Z.ltb_spec (month d) 12).
    + unfold valid_date; simpl.
      assert (1 <= days_in_month (year d) (month d + 1)).
      { unfold days_in_month.
        assert (Hc : month d = 1 \/ month d = 2 \/ month d = 3 \/ month d = 4 \/
                     month d = 5 \/ month d = 6 \/ month d = 7 \/ month d = 8 \/
                     month d = 9 \/ month d = 10 \/ month d = 11) by lia.
        destruct (is_leap (year d));
          decompose [or] Hc; clear Hc;
          match goal with H : month d = _ |- _ => rewrite H end; simpl; lia. }
      repeat (apply andb_true_intro; split); apply Z.leb_le; lia.
    + unfold valid_date; simpl.
      repeat (apply andb_true_intro; split); try (apply Z.leb_le; lia).
      reflexivity.
Qed.

Lemma weekday_next_day d :
  valid_date d = true -> weekday (next_day d) = (weekday d + 1) mod 7.
Proof.
  intros Hv. unfold weekday. rewrite toordinal_next_day by assumption.
  Z.div_mod_to_equations. lia.
Qed.

Lemma date_eqb_refl d : date_eqb d d = true.
Proof. unfold date_eqb. now rewrite !Z.eqb_refl. Qed.

End CalendarFacts.

(** *** Beyond the claims: time utilities *)

Section TimeUtilsFacts.
Import Datetime Calendar TimeUtilsDates.

Lemma valid_time_micros t :
  valid_time t = true -> 0 <= time_micros t < 86400000000.
Proof.
  unfold valid_time, time_micros. intros H.
  repeat (apply andb_prop in H as [H ?]). lia.
Qed.

(** One more day stays in the calendar while the date is before the year
    9999, or in the first [j] days of a January. *)
Lemma next_day_early d j :
  valid_date d = true -> 0 <= j < 28 ->
  year d < 9999 \/ (month d = 1 /\ day d <= j) ->
  valid_date (next_day d) = true /\
  (year (next_day d) < 9999 \/
   (month (next_day d) = 1 /\ day (next_day d) <= j + 1)).
Proof.
  intros Hv Hj [Hy | [Hm Hd]].
  - split; [now apply valid_date_next_day|].
    apply valid_date_bounds in Hv as (Hy' & Hm & Hd).
    unfold next_day.
    destruct (Z.ltb_spec (day d) (days_in_month (year d) (month d))); simpl;
      [now left|].
    destruct (Z.ltb_spec (month d) 12); simpl; [now left|].
    right. lia.
  - pose proof (valid_date_bounds d Hv) as (Hy' & Hm' & Hd').
    unfold next_day, days_in_month. rewrite Hm. simpl.
    destruct (Z.ltb_spec (day d) 31); [|lia].
    split; [|right; simpl; lia].
    unfold valid_date, days_in_month; simpl.
    repeat (apply andb_true_intro; split); apply Z.leb_le; lia.
Qed.

(** [plus_days] of one, two or three days from a date before the year
    9999 succeeds, and the weekday moves by as many days. *)
Lemma plus_days_upto_three n dt :
  valid_date (dt_date dt) = true -> year (dt_date dt) < 9999 ->
  (1 <= n <= 3)%nat ->
  exists d,
    plus_days n dt = Some (mk_datetime d (dt_time dt)) /\
    toordinal d = toordinal (dt_date dt) + Z.of_nat n /\
    weekday d = (weekday (dt_date dt) + Z.of_nat n) mod 7.
Proof.
  intros Hv Hy Hn.
  destruct (next_day_early (dt_date dt) 0 Hv ltac:(lia) (or_introl Hy))
    as [Hv1 He1].
  destruct (next_day_early _ 1 Hv1 ltac:(lia) He1) as [Hv2 He2].
  destruct (next_day_early _ 2 Hv2 ltac:(lia) He2) as [Hv3 He3].
  pose proof (toordinal_next_day _ Hv) as Ho1.
  pose proof (toordinal_next_day _ Hv1) as Ho2.
  pose proof (toordinal_next_day _ Hv2) as Ho3.
  assert (Hc : n = 1%nat \/ n = 2%nat \/ n = 3%nat) by lia.
  unfold plus_days, weekday.
  destruct Hc as [-> | [-> | ->]]; simpl Nat.iter.
  - rewrite Hv1. eexists; split; [reflexivity|]. split; [lia|].
    rewrite Ho1. simpl Z.of_nat. Z.div_mod_to_equations. lia.
  - rewrite Hv2. eexists; split; [reflexivity|]. split; [lia|].
    rewrite Ho2, Ho1. simpl Z.of_nat. Z.div_mod_to_equations. lia.
  - rewrite Hv3. eexists; split; [reflexivity|]. split; [lia|].
    rewrite Ho3, Ho2, Ho1. simpl Z.of_nat. Z.div_mod_to_equations. lia.
Qed.

End TimeUtilsFacts.

(** X10. [get_next_workday]: from every date before the year 9999 it returns a
    day from Monday to Friday, one to three days after today, at the
    same time of day; [is_weekend] is false on that day. *)
Theorem get_next_workday_is_work_day
    (now : Datetime.datetime)
    (Hvalid : Datetime.valid_date (Datetime.dt_date now) = true)
    (Hyear : Datetime.year (Datetime.dt_date now) < 9999) :
  exists next,
    TimeUtilsDates.get_next_workday now = Some next /\
    Datetime.dt_time next = Datetime.dt_time now /\
    0 <= Datetime.weekday (Datetime.dt_date next) <= 4 /\
    TimeUtilsDates.is_weekend next = false /\
    1 <= Datetime.toordinal (Datetime.dt_date next) -
         Datetime.toordinal (Datetime.dt_date now) <= 3.
Proof.
  assert (Hw : 0 <= Datetime.weekday (Datetime.dt_date now) < 7)
    by (unfold Datetime.weekday; apply Z.mod_pos_bound; lia).
  assert (Hgo : forall n, (1 <= n <= 3)%nat ->
            0 <= (Datetime.weekday (Datetime.dt_date now) + Z.of_nat n) mod 7 <= 4 ->
            exists next,
              Calendar.plus_days n now = Some next /\
              Datetime.dt_time next = Datetime.dt_time now /\
              0 <= Datetime.weekday (Datetime.dt_date next) <= 4 /\
              TimeUtilsDates.is_weekend next = false /\
              1 <= Datetime.toordinal (Datetime.dt_date next) -
                   Datetime.toordinal (Datetime.dt_date now) <= 3).
  { intros n Hn Hday.
    destruct (plus_days_upto_three n now Hvalid Hyear Hn) as (d & Hp & Ho & Hwd).
    exists (Datetime.mk_datetime d (Datetime.dt_time now)).
    split; [exact Hp|]. split; [reflexivity|]. simpl.
    unfold TimeUtilsDates.is_weekend; simpl. rewrite Hwd.
    split; [exact Hday|]. split; [|lia].
    apply Z.leb_gt. lia. }
  unfold TimeUtilsDates.get_next_workday. cbv zeta.
  destruct (Z.eqb_spec (Datetime.weekday (Datetime.dt_date now)) 4) as [H4|H4].
  { apply Hgo; [lia|]. rewrite H4. simpl Z.of_nat. Z.div_mod_to_equations. lia. }
  destruct (Z.eqb_spec (Datetime.weekday (Datetime.dt_date now)) 5) as [H5|H5].
  { apply Hgo; [lia|]. rewrite H5. simpl Z.of_nat. Z.div_mod_to_equations. lia. }
  destruct (Z.eqb_spec (Datetime.weekday (Datetime.dt_date now)) 6) as [H6|H6].
  { apply Hgo; [lia|]. rewrite H6. simpl Z.of_nat. Z.div_mod_to_equations. lia. }
  apply Hgo; [lia|].
  change (Z.of_nat 1) with 1. Z.div_mod_to_equations. lia.
Qed.

Lemma get_next_workday_is_work_day_witness :
  Datetime.valid_date (Datetime.dt_date (Datetime.at_ 2024 2 29 18 30 0)) = true /\
  Datetime.weekday (Datetime.dt_date (Datetime.at_ 2024 2 29 18 30 0)) = 3 /\
  exists next,
    TimeUtilsDates.get_next_workday (Datetime.at_ 2024 2 29 18 30 0) = Some next /\
    Datetime.dt_time next = Datetime.dt_time (Datetime.at_ 2024 2 29 18 30 0) /\
    0 <= Datetime.weekday (Datetime.dt_date next) <= 4 /\
    TimeUtilsDates.is_weekend next = false /\
    1 <= Datetime.toordinal (Datetime.dt_date next) -
         Datetime.toordinal (Datetime.dt_date (Datetime.at_ 2024 2 29 18 30 0)) <= 3.
Proof.
  split; [reflexivity|]. split; [reflexivity|].
  apply (get_next_workday_is_work_day (Datetime.at_ 2024 2 29 18 30 0)).
  - reflexivity.
  - simpl. lia.
Defined.

(** X11. [minutes_until_time]: with a target that parses and a clock before
    the year 9999, the result is the number of whole minutes until the
    next time the clock shows the target, between 0 and 1440; the wait is
    a full day when the clock shows the target now, also on the last day
    of a month. *)
Theorem minutes_until_time_next_occurrence
    (strptime : string -> option Datetime.time)
    (target_time_str : string) (now : Datetime.datetime)
    (target_time : Datetime.time)
    (Hparse : strptime target_time_str = Some target_time)
    (Htarget : Datetime.valid_time target_time = true)
    (Hnow : Datetime.valid_datetime now = true)
    (Hyear : Datetime.year (Datetime.dt_date now) < 9999) :
  let target := Datetime.time_micros target_time in
  let clock := Datetime.time_micros (Datetime.dt_time now) in
  let wait :=
    if target <=? clock then target + 86400000000 - clock else target - clock in
  0 < wait <= 86400000000 /\
  TimeUtilsDates.minutes_until_time strptime target_time_str now =
    Some (wait / 60000000) /\
  0 <= wait / 60000000 <= 1440.
Proof.
  cbv zeta.
  apply andb_prop in Hnow as [Hdate Htime].
  pose proof (valid_time_micros _ Htarget) as Ht.
  pose proof (valid_time_micros _ Htime) as Hc.
  unfold TimeUtilsDates.minutes_until_time. rewrite Hparse. cbv zeta.
  unfold Datetime.datetime_le, Datetime.combine, Datetime.datetime_micros at 1 2.
  simpl Datetime.dt_date. simpl Datetime.dt_time.
  destruct (Z.leb_spec (Datetime.time_micros target_time)
              (Datetime.time_micros (Datetime.dt_time now))) as [Hle|Hgt].
  - destruct (Z.leb_spec
                (Datetime.toordinal (Datetime.dt_date now) * 86400000000 +
                 Datetime.time_micros target_time)
                (Datetime.toordinal (Datetime.dt_date now) * 86400000000 +
                 Datetime.time_micros (Datetime.dt_time now))); [|lia].
    destruct (plus_days_upto_three 1
                (Datetime.mk_datetime (Datetime.dt_date now) target_time)
                Hdate Hyear ltac:(lia)) as (d & Hp & Ho & _).
    rewrite Hp. simpl in Ho.
    unfold Datetime.datetime_sub, Datetime.datetime_micros; simpl. rewrite Ho.
    split; [lia|]. split.
    + f_equal. rewrite Z.quot_div_nonneg by lia. f_equal. lia.
    + Z.div_mod_to_equations. lia.
  - destruct (Z.leb_spec
                (Datetime.toordinal (Datetime.dt_date now) * 86400000000 +
                 Datetime.time_micros target_time)
                (Datetime.toordinal (Datetime.dt_date now) * 86400000000 +
                 Datetime.time_micros (Datetime.dt_time now))); [lia|].
    unfold Datetime.datetime_sub, Datetime.datetime_micros; simpl.
    split; [lia|]. split.
    + f_equal. rewrite Z.quot_div_nonneg by lia. f_equal. lia.
    + Z.div_mod_to_equations. lia.
Qed.

Lemma minutes_until_time_next_occurrence_witness :
  let now := Datetime.at_ 2024 1 31 18 0 0 in
  Scheduler.fromisoformat_hms "17:00" = Some (Datetime.mk_time 17 0 0 0) /\
  TimeUtilsDates.minutes_until_time Scheduler.fromisoformat_hms "17:00" now =
    Some 1380 /\
  let target := Datetime.time_micros (Datetime.mk_time 17 0 0 0) in
  let clock := Datetime.time_micros (Datetime.dt_time now) in
  let wait :=
    if target <=? clock then target + 86400000000 - clock else target - clock in
  0 < wait <= 86400000000 /\
  TimeUtilsDates.minutes_until_time Scheduler.fromisoformat_hms "17:00" now =
    Some (wait / 60000000) /\
  0 <= wait / 60000000 <= 1440.
Proof.
  split; [reflexivity|]. split; [reflexivity|].
  apply (minutes_until_time_next_occurrence Scheduler.fromisoformat_hms "17:00"
           (Datetime.at_ 2024 1 31 18 0 0) (Datetime.mk_time 17 0 0 0)).
  - reflexivity.
  - reflexivity.
  - reflexivity.
  - simpl. lia.
Defined.

(** X12. [get_start_of_day] and [get_end_of_day]: a moment lies between the
    start and the end of its day, both included, and the three are on
    the same day. *)
Theorem day_bounds_enclose
    (dt now : Datetime.datetime)
    (Htime : Datetime.valid_time (Datetime.dt_time dt) = true) :
  let first := TimeUtilsDates.get_start_of_day (Some dt) now in
  let last := TimeUtilsDates.get_end_of_day (Some dt) now in
  Datetime.datetime_le first dt = true /\
  Datetime.datetime_le dt last = true /\
  TimeUtilsDates.is_same_day first dt = true /\
  TimeUtilsDates.is_same_day dt last = true /\
  Datetime.datetime_sub last first = 86400000000 - 1.
Proof.
  cbv zeta. pose proof (valid_time_micros _ Htime) as Hc.
  unfold TimeUtilsDates.get_start_of_day, TimeUtilsDates.get_end_of_day,
    TimeUtilsDates.is_same_day, Datetime.datetime_le, Datetime.datetime_sub,
    Datetime.datetime_micros, Datetime.combine; simpl.
  rewrite !date_eqb_refl.
  change (Datetime.time_micros Calendar.min_time) with 0.
  change (Datetime.time_micros Calendar.max_time) with 86399999999.
  repeat split; try (apply Z.leb_le; lia). lia.
Qed.

Lemma day_bounds_enclose_witness :
  let dt := Datetime.at_ 2024 2 29 23 59 59 in
  let first := TimeUtilsDates.get_start_of_day (Some dt) dt in
  let last := TimeUtilsDates.get_end_of_day (Some dt) dt in
  Datetime.valid_time (Datetime.dt_time dt) = true /\
  Datetime.datetime_le first dt = true /\
  Datetime.datetime_le dt last = true /\
  TimeUtilsDates.is_same_day first dt = true /\
  TimeUtilsDates.is_same_day dt last = true /\
  Datetime.datetime_sub last first = 86400000000 - 1.
Proof.
  split; [reflexivity|].
  apply (day_bounds_enclose (Datetime.at_ 2024 2 29 23 59 59)
                            (Datetime.at_ 2024 2 29 23 59 59)).
  reflexivity.
Defined.

(** *** Beyond the claims: the usage log *)

Section UsageLogFacts.
Import Datetime Calendar Database DatabaseQueries ActivityTracker TrackerInvariant.

(** [result[0] if result[0] else 0] is the sum, zero over no row. *)
Lemma get_total_screen_time_sum date db :
  get_total_screen_time date db = foldr Z.add 0 (selected_durations date db).
Proof.
  unfold get_total_screen_time, sql_sum.
  destruct (selected_durations date db) as [|x l]; [reflexivity|].
  unfold Py.truthy_int.
  destruct (Z.eqb_spec (foldr Z.add 0 (x :: l)) 0) as [H|H]; simpl;
    [simpl in H; lia | reflexivity].
Qed.

Lemma selected_durations_app date rows1 rows2 n :
  selected_durations date (mk_db (rows1 ++ rows2)%list n) =
  (selected_durations date (mk_db rows1 n) ++
   selected_durations date (mk_db rows2 n))%list.
Proof. unfold selected_durations; simpl. apply omap_app. Qed.

Lemma foldr_add_app (l1 l2 : list Z) :
  foldr Z.add 0 (l1 ++ l2)%list = foldr Z.add 0 l1 + foldr Z.add 0 l2.
Proof. induction l1 as [|x l1 IH]; simpl; [reflexivity | rewrite IH; lia]. Qed.

(** An update under an id that no row has changes nothing. *)
Lemma update_rows_fresh id end_time duration rows :
  Forall (fun r => row_id r <> id) rows ->
  List.map (fun r =>
              if row_id r =? id
              then mk_row (row_id r) (row_app_name r) (row_start_time r)
                          (Some end_time) (Some duration)
              else r) rows = rows.
Proof.
  induction 1 as [|r rows Hr _ IH]; simpl; [reflexivity|].
  destruct (Z.eqb_spec (row_id r) id); [contradiction | now rewrite IH].
Qed.

Lemma well_formed_fresh db :
  well_formed db ->
  Forall (fun r => row_id r <> last_id db + 1) (app_usage db).
Proof.
  intros (_ & _ & Hb). eapply Forall_impl; [exact Hb|]. simpl. intros r Hr. lia.
Qed.

(** The rows after a session that is opened and then closed at least one
    second later, over a table whose ids are not above its counter. *)
Lemma completed_session_rows app ts te t :
  Forall (fun r => row_id r <> last_id (db_manager t) + 1)
         (app_usage (db_manager t)) ->
  last_id (db_manager t) + 1 <> 0 ->
  1 <= total_seconds_int (datetime_sub te ts) ->
  app_usage (db_manager (end_session te (start_session app ts t))) =
  (app_usage (db_manager t) ++
   [mk_row (last_id (db_manager t) + 1) app ts (Some te)
           (Some (total_seconds_int (datetime_sub te ts)))])%list.
Proof.
  intros Hfresh Hid Hdur.
  unfold end_session, start_session; simpl.
  unfold Py.truthy_int.
  destruct (Z.eqb_spec (last_id (db_manager t) + 1) 0); [contradiction|]. simpl.
  destruct (Z.leb_spec 1 (total_seconds_int (datetime_sub te ts))); [|lia].
  simpl. rewrite map_app. simpl. rewrite Z.eqb_refl.
  now rewrite update_rows_fresh.
Qed.

End UsageLogFacts.

(** X3. A session that is opened and closed at least one second later leaves
    exactly one new row in the usage log, with its name, both timestamps
    and the whole seconds between them; the rows that were there are
    untouched, and no session is held afterwards. *)
Theorem completed_session_is_recorded
    (t : ActivityTracker.tracker) (app : string) (ts te : Datetime.datetime)
    (Hwf : DatabaseQueries.well_formed (ActivityTracker.db_manager t))
    (Hlong : 1 <= Datetime.total_seconds_int (Datetime.datetime_sub te ts)) :
  let t' := ActivityTracker.end_session te (ActivityTracker.start_session app ts t) in
  Database.app_usage (ActivityTracker.db_manager t') =
    (Database.app_usage (ActivityTracker.db_manager t) ++
     [Database.mk_row (Database.last_id (ActivityTracker.db_manager t) + 1) app ts
        (Some te)
        (Some (Datetime.total_seconds_int (Datetime.datetime_sub te ts)))])%list /\
  ActivityTracker.holds_session t' = false /\
  DatabaseQueries.well_formed (ActivityTracker.db_manager t').
Proof.
  cbv zeta.
  pose proof (well_formed_fresh _ Hwf) as Hfresh.
  destruct Hwf as (Hid & Hnd & Hb).
  assert (Hrows := completed_session_rows app ts te t Hfresh ltac:(lia) Hlong).
  split; [exact Hrows|]. split; [reflexivity|].
  unfold DatabaseQueries.well_formed. rewrite Hrows.
  rewrite end_session_last_id. simpl.
  split; [lia|]. split.
  - rewrite fmap_app. simpl. apply NoDup_app. split; [exact Hnd|]. split.
    + intros x Hx Hx'. apply list_elem_of_singleton in Hx'. subst x.
      apply list_elem_of_fmap in Hx as (r & Hr & Hin).
      rewrite Forall_forall in Hfresh. apply (Hfresh r); [|congruence].
      exact Hin.
    + apply NoDup_singleton.
  - apply Forall_app. split.
    + eapply Forall_impl; [exact Hb|]. simpl. intros r Hr. lia.
    + apply Forall_singleton. simpl. lia.
Qed.

Lemma completed_session_is_recorded_witness :
  let t := ActivityTracker.init Database.empty 5 in
  let ts := Datetime.at_ 2024 1 10 10 0 0 in
  let te := Datetime.at_ 2024 1 10 10 7 30 in
  let t' := ActivityTracker.end_session te
              (ActivityTracker.start_session "editor" ts t) in
  Datetime.total_seconds_int (Datetime.datetime_sub te ts) = 450 /\
  Database.app_usage (ActivityTracker.db_manager t') =
    (Database.app_usage (ActivityTracker.db_manager t) ++
     [Database.mk_row (Database.last_id (ActivityTracker.db_manager t) + 1)
        "editor" ts (Some te)
        (Some (Datetime.total_seconds_int (Datetime.datetime_sub te ts)))])%list /\
  ActivityTracker.holds_session t' = false /\
  DatabaseQueries.well_formed (ActivityTracker.db_manager t').
Proof.
  split; [reflexivity|].
  apply (completed_session_is_recorded (ActivityTracker.init Database.empty 5)
           "editor" (Datetime.at_ 2024 1 10 10 0 0)
           (Datetime.at_ 2024 1 10 10 7 30)).
  - split; [simpl; lia|]. split; [apply NoDup_nil; exact I | apply Forall_nil; exact I].
  - vm_compute. discriminate.
Defined.

(** X4. [get_total_screen_time] after a session that is opened and closed at
    least one second later: the total of the day the session started on
    grows by the duration of the session, the total of every other day
    is unchanged. *)
Theorem completed_session_adds_to_screen_time
    (t : ActivityTracker.tracker) (app : string) (ts te : Datetime.datetime)
    (date : Datetime.date)
    (Hwf : DatabaseQueries.well_formed (ActivityTracker.db_manager t))
    (Hlong : 1 <= Datetime.total_seconds_int (Datetime.datetime_sub te ts)) :
  let t' := ActivityTracker.end_session te (ActivityTracker.start_session app ts t) in
  DatabaseQueries.get_total_screen_time date (ActivityTracker.db_manager t') =
  DatabaseQueries.get_total_screen_time date (ActivityTracker.db_manager t) +
  (if Calendar.date_eqb (Datetime.dt_date ts) date
   then Datetime.total_seconds_int (Datetime.datetime_sub te ts) else 0).
Proof.
  cbv zeta.
  pose proof (well_formed_fresh _ Hwf) as Hfresh.
  destruct Hwf as (Hid & _ & _).
  assert (Hrows := completed_session_rows app ts te t Hfresh ltac:(lia) Hlong).
  rewrite !get_total_screen_time_sum.
  unfold DatabaseQueries.selected_durations. rewrite Hrows.
  rewrite omap_app, foldr_add_app. simpl.
  destruct (Calendar.date_eqb (Datetime.dt_date ts) date); simpl; lia.
Qed.

Lemma completed_session_adds_to_screen_time_witness :
  let t := ActivityTracker.init Database.empty 5 in
  let ts := Datetime.at_ 2024 1 10 23 59 0 in
  let te := Datetime.at_ 2024 1 11 0 1 0 in
  let t' := ActivityTracker.end_session te
              (ActivityTracker.start_session "editor" ts t) in
  DatabaseQueries.get_total_screen_time (Datetime.mk_date 2024 1 10)
    (ActivityTracker.db_manager t') = 120 /\
  DatabaseQueries.get_total_screen_time (Datetime.mk_date 2024 1 10)
    (ActivityTracker.db_manager t') =
  DatabaseQueries.get_total_screen_time (Datetime.mk_date 2024 1 10)
    (ActivityTracker.db_manager t) +
  (if Calendar.date_eqb (Datetime.dt_date ts) (Datetime.mk_date 2024 1 10)
   then Datetime.total_seconds_int (Datetime.datetime_sub te ts) else 0).
Proof.
  split; [reflexivity|].
  apply (completed_session_adds_to_screen_time
           (ActivityTracker.init Database.empty 5) "editor"
           (Datetime.at_ 2024 1 10 23 59 0) (Datetime.at_ 2024 1 11 0 1 0)
           (Datetime.mk_date 2024 1 10)).
  - split; [simpl; lia|]. split; [apply NoDup_nil; exact I | apply Forall_nil; exact I].
  - vm_compute. discriminate.
Defined.

(** X5. [get_total_screen_time] does not count a session that is open, nor
    one that was closed less than one second after it was opened: their
    rows have no duration. *)
Theorem open_and_short_sessions_not_counted
    (t : ActivityTracker.tracker) (app : string) (ts te : Datetime.datetime)
    (date : Datetime.date)
    (Hshort : Datetime.total_seconds_int (Datetime.datetime_sub te ts) < 1) :
  let opened := ActivityTracker.start_session app ts t in
  let closed := ActivityTracker.end_session te opened in
  DatabaseQueries.get_total_screen_time date (ActivityTracker.db_manager opened) =
    DatabaseQueries.get_total_screen_time date (ActivityTracker.db_manager t) /\
  DatabaseQueries.get_total_screen_time date (ActivityTracker.db_manager closed) =
    DatabaseQueries.get_total_screen_time date (ActivityTracker.db_manager t).
Proof.
  cbv zeta.
  assert (Hopen :
    DatabaseQueries.get_total_screen_time date
      (ActivityTracker.db_manager (ActivityTracker.start_session app ts t)) =
    DatabaseQueries.get_total_screen_time date (ActivityTracker.db_manager t)).
  { rewrite !get_total_screen_time_sum.
    unfold DatabaseQueries.selected_durations. rewrite start_session_rows.
    rewrite omap_app, foldr_add_app. simpl.
    destruct (Calendar.date_eqb (Datetime.dt_date ts) date); simpl; lia. }
  split; [exact Hopen|].
  rewrite <- Hopen. f_equal.
  unfold ActivityTracker.end_session, ActivityTracker.start_session; simpl.
  destruct (Py.truthy_int _); [|reflexivity].
  destruct (Z.leb_spec 1 (Datetime.total_seconds_int (Datetime.datetime_sub te ts)));
    [lia | reflexivity].
Qed.

Lemma open_and_short_sessions_not_counted_witness :
  let t := ActivityTracker.init Database.empty 5 in
  let ts := Datetime.at_ 2024 1 10 10 0 0 in
  let te := Datetime.mk_datetime (Datetime.mk_date 2024 1 10)
                                 (Datetime.mk_time 10 0 0 999999) in
  let date := Datetime.mk_date 2024 1 10 in
  let opened := ActivityTracker.start_session "editor" ts t in
  let closed := ActivityTracker.end_session te opened in
  Datetime.total_seconds_int (Datetime.datetime_sub te ts) = 0 /\
  DatabaseQueries.get_total_screen_time date (ActivityTracker.db_manager opened) =
    DatabaseQueries.get_total_screen_time date (ActivityTracker.db_manager t) /\
  DatabaseQueries.get_total_screen_time date (ActivityTracker.db_manager closed) =
    DatabaseQueries.get_total_screen_time date (ActivityTracker.db_manager t).
Proof.
  split; [reflexivity|].
  apply (open_and_short_sessions_not_counted
           (ActivityTracker.init Database.empty 5) "editor"
           (Datetime.at_ 2024 1 10 10 0 0)
           (Datetime.mk_datetime (Datetime.mk_date 2024 1 10)
                                 (Datetime.mk_time 10 0 0 999999))
           (Datetime.mk_date 2024 1 10)).
  vm_compute. reflexivity.
Defined.

Section TrackerInvariantFacts.
Import Datetime Calendar Database DatabaseQueries ActivityTracker TrackerInvariant.

Lemma rows_same_id rows r1 r2 :
  NoDup (row_id <$> rows) -> In r1 rows -> In r2 rows ->
  row_id r1 = row_id r2 -> r1 = r2.
Proof.
  induction rows as [|r rows IH]; simpl; [contradiction|].
  intros Hnd H1 H2 Hid. apply NoDup_cons in Hnd as [Hnotin Hnd].
  destruct H1 as [-> | H1], H2 as [-> | H2]; [reflexivity | | | now apply IH].
  - exfalso. apply Hnotin. rewrite Hid. apply list_elem_of_fmap.
    exists r2. split; [reflexivity | now apply list_elem_of_In].
  - exfalso. apply Hnotin. rewrite <- Hid. apply list_elem_of_fmap.
    exists r1. split; [reflexivity | now apply list_elem_of_In].
Qed.

Lemma update_app_usage_ids id end_time duration db :
  row_id <$> app_usage (update_app_usage id end_time duration db) =
  row_id <$> app_usage db.
Proof.
  unfold update_app_usage; simpl.
  induction (app_usage db) as [|r rows IH]; simpl; [reflexivity|].
  f_equal; [now destruct (row_id r =? id) | exact IH].
Qed.

Lemma update_app_usage_well_formed id end_time duration db :
  well_formed db -> well_formed (update_app_usage id end_time duration db).
Proof.
  intros (Hid & Hnd & Hb). unfold well_formed.
  rewrite update_app_usage_ids. split; [exact Hid|]. split; [exact Hnd|].
  unfold update_app_usage; simpl. apply Forall_map.
  eapply Forall_impl; [exact Hb|]. simpl. intros r Hr.
  now destruct (row_id r =? id).
Qed.

Lemma start_session_invariant app now t :
  tracker_invariant t -> tracker_invariant (start_session app now t).
Proof.
  intros (Hwf & Hc & _).
  pose proof (well_formed_fresh _ Hwf) as Hfresh.
  destruct Hwf as (Hid & Hnd & Hb).
  split; [|split].
  - unfold well_formed. rewrite start_session_rows. simpl.
    split; [lia|]. split.
    + rewrite fmap_app. simpl. apply NoDup_app. split; [exact Hnd|]. split.
      * intros x Hx Hx'. apply list_elem_of_singleton in Hx'. subst x.
        apply list_elem_of_fmap in Hx as (r & Hr & Hin).
        rewrite Forall_forall in Hfresh. apply (Hfresh r); [|congruence].
        exact Hin.
      * apply NoDup_singleton.
    + apply Forall_app. split.
      * eapply Forall_impl; [exact Hb|]. simpl. intros r Hr. lia.
      * apply Forall_singleton. simpl. lia.
  - rewrite start_session_rows. apply Forall_app. split; [exact Hc|].
    apply Forall_singleton. exact I.
  - unfold session_row_open. rewrite start_session_rows. simpl.
    apply in_or_app. right. now left.
Qed.

Lemma end_session_invariant now t :
  tracker_invariant t -> tracker_invariant (end_session now t).
Proof.
  intros (Hwf & Hc & Hopen).
  unfold tracker_invariant, end_session, session_row_open in *. simpl.
  assert (Hsame : well_formed (db_manager t) /\
                  Forall row_consistent (app_usage (db_manager t)) /\ True)
    by (split; [exact Hwf | split; [exact Hc | exact I]]).
  destruct (current_session_id t) as [id|]; [|exact Hsame].
  destruct (session_start_time t) as [start|]; [|exact Hsame].
  destruct (Py.truthy_int id); [|exact Hsame].
  destruct (Z.leb_spec 1 (total_seconds_int (datetime_sub now start)));
    [|exact Hsame].
  clear Hsame.
  split; [now apply update_app_usage_well_formed|]. split; [|exact I].
  destruct (current_app t) as [app|]; [|contradiction].
  destruct Hwf as (_ & Hnd & _).
  unfold update_app_usage; simpl. apply Forall_map.
  rewrite Forall_forall in Hc |- *. intros r Hr. simpl.
  destruct (Z.eqb_spec (row_id r) id) as [Heq|Hne]; [|now apply Hc].
  apply list_elem_of_In in Hr.
  assert (r = mk_row id app start None None) as ->
    by (apply (rows_same_id _ _ _ Hnd Hr Hopen); exact Heq).
  unfold row_consistent; simpl. split; [reflexivity | assumption].
Qed.

Lemma tracker_invariant_is_running t b :
  tracker_invariant t ->
  tracker_invariant
    (mk_tracker (db_manager t) (poll_interval t) (current_app t)
                (current_session_id t) (session_start_time t) b
                (idle_threshold t)).
Proof. intros H. exact H. Qed.

Lemma step_invariant t e : tracker_invariant t -> tracker_invariant (step t e).
Proof.
  intros Hinv. destruct e as [|o|now]; simpl.
  - unfold start_tracking. destruct (negb (is_running t)); [|exact Hinv].
    now apply tracker_invariant_is_running.
  - destruct (is_running t); [|exact Hinv].
    destruct (track_activity_iteration_cases o t)
      as [-> | [-> | [[app ->] | [app [_ ->]]]]].
    + exact Hinv.
    + now apply end_session_invariant.
    + now apply start_session_invariant, end_session_invariant.
    + now apply start_session_invariant.
  - unfold stop_tracking. destruct (is_running t); [|exact Hinv].
    simpl. destruct (Py.truthy_opt_str (current_app t)).
    + apply end_session_invariant. now apply tracker_invariant_is_running.
    + now apply tracker_invariant_is_running.
Qed.

Lemma run_invariant es t : tracker_invariant t -> tracker_invariant (run es t).
Proof.
  revert t. induction es as [|e es IH]; intros t Hinv; simpl; [exact Hinv|].
  apply IH. now apply step_invariant.
Qed.

Lemma start_session_session_invariant app now t :
  session_invariant t -> session_invariant (start_session app now t).
Proof.
  intros (Hwf & _).
  pose proof (well_formed_fresh _ Hwf) as Hfresh.
  destruct Hwf as (Hid & Hnd & Hb).
  split.
  - unfold well_formed. rewrite start_session_rows. simpl.
    split; [lia|]. split.
    + rewrite fmap_app. simpl. apply NoDup_app. split; [exact Hnd|]. split.
      * intros x Hx Hx'. apply list_elem_of_singleton in Hx'. subst x.
        apply list_elem_of_fmap in Hx as (r & Hr & Hin).
        rewrite Forall_forall in Hfresh. apply (Hfresh r); [|congruence].
        exact Hin.
      * apply NoDup_singleton.
    + apply Forall_app. split.
      * eapply Forall_impl; [exact Hb|]. simpl. intros r Hr. lia.
      * apply Forall_singleton. simpl. lia.
  - unfold session_row_open. rewrite start_session_rows. simpl.
    apply in_or_app. right. now left.
Qed.

Lemma end_session_session_invariant now t :
  session_invariant t -> session_invariant (end_session now t).
Proof.
  intros (Hwf & _). split; [|exact I].
  unfold end_session; simpl.
  destruct (current_session_id t) as [id|]; [|exact Hwf].
  destruct (session_start_time t) as [start|]; [|exact Hwf].
  destruct (Py.truthy_int id); [|exact Hwf].
  destruct (1 <=? total_seconds_int (datetime_sub now start)); [|exact Hwf].
  now apply update_app_usage_well_formed.
Qed.

Lemma step_session_invariant t e :
  session_invariant t -> session_invariant (step t e).
Proof.
  intros Hinv. destruct e as [|o|now]; simpl.
  - unfold start_tracking. destruct (negb (is_running t)); exact Hinv.
  - destruct (is_running t); [|exact Hinv].
    destruct (track_activity_iteration_cases o t)
      as [-> | [-> | [[app ->] | [app [_ ->]]]]].
    + exact Hinv.
    + now apply end_session_session_invariant.
    + now apply start_session_session_invariant, end_session_session_invariant.
    + now apply start_session_session_invariant.
  - unfold stop_tracking. destruct (is_running t); [|exact Hinv].
    simpl. destruct (Py.truthy_opt_str (current_app t)); [|exact Hinv].
    apply end_session_session_invariant. exact Hinv.
Qed.

Lemma run_session_invariant es t :
  session_invariant t -> session_invariant (run es t).
Proof.
  revert t. induction es as [|e es IH]; intros t Hinv; simpl; [exact Hinv|].
  apply IH. now apply step_session_invariant.
Qed.

Lemma end_session_short_db now t start :
  session_start_time t = Some start ->
  total_seconds_int (datetime_sub now start) < 1 ->
  db_manager (end_session now t) = db_manager t.
Proof.
  intros Hs Hshort. unfold end_session; simpl. rewrite Hs.
  destruct (current_session_id t); [|reflexivity].
  destruct (Py.truthy_int _); [|reflexivity].
  destruct (Z.leb_spec 1 (total_seconds_int (datetime_sub now start)));
    [lia | reflexivity].
Qed.

(** The latest of some rows followed by one with a larger id is that
    one. *)
Lemma latest_open_row_snoc rows r :
  Forall (fun r' => row_id r' < row_id r) rows ->
  foldl (fun best r =>
           match best with
           | Some b => if row_id b <? row_id r then Some r else Some b
           | None => Some r
           end) None (rows ++ [r])%list = Some r.
Proof.
  intros Hlt. rewrite foldl_app. simpl.
  set (pick := fun best r0 => match best with
                              | Some b => if row_id b <? row_id r0 then Some r0 else Some b
                              | None => Some r0
                              end).
  assert (Hbest : forall l acc,
             Forall (fun r' => row_id r' < row_id r) l ->
             (acc = None \/ exists b, acc = Some b /\ row_id b < row_id r) ->
             foldl pick acc l = None \/
             exists b, foldl pick acc l = Some b /\ row_id b < row_id r).
  { induction l as [|x l IH]; intros acc Hl Hacc; simpl; [exact Hacc|].
    apply Forall_cons in Hl as [Hx Hl]. apply IH; [exact Hl|].
    right. destruct Hacc as [-> | (b & -> & Hb)]; simpl; [eauto|].
    destruct (row_id b <? row_id x); eauto. }
  destruct (Hbest rows None Hlt (or_introl eq_refl)) as [-> | (b & -> & Hb)];
    [reflexivity|].
  destruct (Z.ltb_spec (row_id b) (row_id r)); [reflexivity | lia].
Qed.

End TrackerInvariantFacts.

(** X1. In every state the tracker reaches from a well-formed table,
    with the statements of the database succeeding, the three attributes
    of the open session are set together or not at all, and when they
    are set the row of [current_session_id] is in the usage log, open,
    under the name and the start time the tracker holds; the table stays
    well formed. *)
Theorem open_session_has_open_row
    (es : list ActivityTracker.event) (db : Database.database) (poll : Z)
    (Hwf : DatabaseQueries.well_formed db) :
  let t := ActivityTracker.run es (ActivityTracker.init db poll) in
  TrackerInvariant.session_row_open t /\
  DatabaseQueries.well_formed (ActivityTracker.db_manager t).
Proof.
  cbv zeta.
  assert (Hinv : TrackerInvariant.session_invariant (ActivityTracker.init db poll))
    by (split; [exact Hwf | exact I]).
  apply (run_session_invariant es) in Hinv. destruct Hinv as (H1 & H2).
  split; assumption.
Qed.

Lemma open_session_has_open_row_witness :
  let o := ActivityTracker.mk_obs (Datetime.at_ 2024 1 10 10 0 0) 0
             (Some "Doc", Some "notepad.exe") in
  let t := ActivityTracker.run
             [ActivityTracker.StartTracking; ActivityTracker.Poll o]
             (ActivityTracker.init Database.empty 5) in
  ActivityTracker.current_session_id t = Some 1 /\
  TrackerInvariant.session_row_open t /\
  DatabaseQueries.well_formed (ActivityTracker.db_manager t).
Proof.
  split; [reflexivity|].
  apply (open_session_has_open_row
           [ActivityTracker.StartTracking;
            ActivityTracker.Poll
              (ActivityTracker.mk_obs (Datetime.at_ 2024 1 10 10 0 0) 0
                 (Some "Doc", Some "notepad.exe"))]
           Database.empty 5).
  split; [simpl; lia|]. split; [apply NoDup_nil; exact I | apply Forall_nil; exact I].
Defined.

(** X2. In every state the tracker reaches from a well-formed table whose
    rows are consistent, every row of the usage log is either open,
    without end time and duration, or closed with a duration of at least
    one second that is the whole seconds between its start and its end. *)
Theorem closed_rows_keep_their_duration
    (es : list ActivityTracker.event) (db : Database.database) (poll : Z)
    (Hwf : DatabaseQueries.well_formed db)
    (Hrows : Forall DatabaseQueries.row_consistent (Database.app_usage db)) :
  Forall DatabaseQueries.row_consistent
    (Database.app_usage
       (ActivityTracker.db_manager
          (ActivityTracker.run es (ActivityTracker.init db poll)))).
Proof.
  assert (Hinv : TrackerInvariant.tracker_invariant (ActivityTracker.init db poll))
    by (split; [exact Hwf | split; [exact Hrows | exact I]]).
  apply (run_invariant es) in Hinv. now destruct Hinv as (_ & H2 & _).
Qed.

Lemma closed_rows_keep_their_duration_witness :
  let o1 := ActivityTracker.mk_obs (Datetime.at_ 2024 1 10 10 0 0) 0
              (Some "Doc", Some "notepad.exe") in
  let o2 := ActivityTracker.mk_obs (Datetime.at_ 2024 1 10 10 0 5) 0
              (Some "Inbox - Google Chrome", Some "chrome.exe") in
  let t := ActivityTracker.run
             [ActivityTracker.StartTracking; ActivityTracker.Poll o1;
              ActivityTracker.Poll o2]
             (ActivityTracker.init Database.empty 5) in
  Database.row_duration_seconds <$> Database.app_usage (ActivityTracker.db_manager t)
    = [Some 5; None] /\
  Forall DatabaseQueries.row_consistent
    (Database.app_usage (ActivityTracker.db_manager t)).
Proof.
  split; [reflexivity|].
  apply (closed_rows_keep_their_duration
           [ActivityTracker.StartTracking;
            ActivityTracker.Poll
              (ActivityTracker.mk_obs (Datetime.at_ 2024 1 10 10 0 0) 0
                 (Some "Doc", Some "notepad.exe"));
            ActivityTracker.Poll
              (ActivityTracker.mk_obs (Datetime.at_ 2024 1 10 10 0 5) 0
                 (Some "Inbox - Google Chrome", Some "chrome.exe"))]
           Database.empty 5).
  - split; [simpl; lia|]. split; [apply NoDup_nil; exact I | apply Forall_nil; exact I].
  - apply Forall_nil; exact I.
Defined.

(** X6. [get_active_session] after [start_session], over a well-formed
    table: it returns the id, the name and the start time of the session
    just opened. *)
Theorem started_session_is_active
    (t : ActivityTracker.tracker) (app : string) (now : Datetime.datetime)
    (Hwf : DatabaseQueries.well_formed (ActivityTracker.db_manager t)) :
  let t' := ActivityTracker.start_session app now t in
  DatabaseQueries.get_active_session (ActivityTracker.db_manager t') =
    Some (Database.last_id (ActivityTracker.db_manager t) + 1, app, now) /\
  ActivityTracker.current_session_id t' =
    Some (Database.last_id (ActivityTracker.db_manager t) + 1).
Proof.
  cbv zeta. split; [|reflexivity].
  unfold DatabaseQueries.get_active_session, Database.open_rows.
  rewrite start_session_rows, List.filter_app. simpl.
  rewrite latest_open_row_snoc; [reflexivity|].
  destruct Hwf as (_ & _ & Hb). simpl.
  rewrite Forall_forall in Hb |- *. intros r Hr.
  apply list_elem_of_In, List.filter_In in Hr as [Hr _].
  apply list_elem_of_In, Hb in Hr. lia.
Qed.

Lemma started_session_is_active_witness :
  let t := ActivityTracker.init Database.empty 5 in
  let now := Datetime.at_ 2024 1 10 10 0 0 in
  let t' := ActivityTracker.start_session "editor" now t in
  DatabaseQueries.get_active_session (ActivityTracker.db_manager t') =
    Some (Database.last_id (ActivityTracker.db_manager t) + 1, "editor", now) /\
  ActivityTracker.current_session_id t' =
    Some (Database.last_id (ActivityTracker.db_manager t) + 1).
Proof.
  apply (started_session_is_active (ActivityTracker.init Database.empty 5)
           "editor" (Datetime.at_ 2024 1 10 10 0 0)).
  split; [simpl; lia|]. split; [apply NoDup_nil; exact I | apply Forall_nil; exact I].
Defined.

(** X7. [get_active_session] after a session that was closed less than one
    second after it was opened, over a well-formed table: the session is
    still reported as the active one, although the tracker holds none. *)
Theorem discarded_session_stays_active
    (t : ActivityTracker.tracker) (app : string) (ts te : Datetime.datetime)
    (Hwf : DatabaseQueries.well_formed (ActivityTracker.db_manager t))
    (Hshort : Datetime.total_seconds_int (Datetime.datetime_sub te ts) < 1) :
  let t' := ActivityTracker.end_session te (ActivityTracker.start_session app ts t) in
  ActivityTracker.holds_session t' = false /\
  DatabaseQueries.get_active_session (ActivityTracker.db_manager t') =
    Some (Database.last_id (ActivityTracker.db_manager t) + 1, app, ts).
Proof.
  cbv zeta. split; [reflexivity|].
  rewrite (end_session_short_db te (ActivityTracker.start_session app ts t) ts
             eq_refl Hshort).
  unfold DatabaseQueries.get_active_session, Database.open_rows.
  rewrite start_session_rows, List.filter_app. simpl.
  rewrite latest_open_row_snoc; [reflexivity|].
  destruct Hwf as (_ & _ & Hb). simpl.
  rewrite Forall_forall in Hb |- *. intros r Hr.
  apply list_elem_of_In, List.filter_In in Hr as [Hr _].
  apply list_elem_of_In, Hb in Hr. lia.
Qed.

Lemma discarded_session_stays_active_witness :
  let t := ActivityTracker.init Database.empty 5 in
  let ts := Datetime.at_ 2024 1 10 10 0 0 in
  let te := Datetime.mk_datetime (Datetime.mk_date 2024 1 10)
                                 (Datetime.mk_time 10 0 0 999999) in
  let t' := ActivityTracker.end_session te
              (ActivityTracker.start_session "editor" ts t) in
  Datetime.total_seconds_int (Datetime.datetime_sub te ts) = 0 /\
  ActivityTracker.holds_session t' = false /\
  DatabaseQueries.get_active_session (ActivityTracker.db_manager t') =
    Some (Database.last_id (ActivityTracker.db_manager t) + 1, "editor", ts).
Proof.
  split; [reflexivity|].
  apply (discarded_session_stays_active (ActivityTracker.init Database.empty 5)
           "editor" (Datetime.at_ 2024 1 10 10 0 0)
           (Datetime.mk_datetime (Datetime.mk_date 2024 1 10)
                                 (Datetime.mk_time 10 0 0 999999))).
  - split; [simpl; lia|]. split; [apply NoDup_nil; exact I | apply Forall_nil; exact I].
  - vm_compute. reflexivity.
Defined.

(** *** Beyond the claims: the session tracker *)

Section TrackerMoreFacts.
Import Datetime Database ActivityTracker.

Lemma string_length_append (s1 s2 : string) :
  String.length (s1 ++ s2) = (String.length s1 + String.length s2)%nat.
Proof. induction s1 as [|c s1 IH]; simpl; [reflexivity | now rewrite IH]. Qed.

Lemma string_length_substring_le n s :
  (String.length (String.substring 0 n s) <= n)%nat.
Proof.
  revert s. induction n as [|n IH]; intros [|c s]; simpl; try lia.
  specialize (IH s). lia.
Qed.

(** Deleting the occurrences of a string does not make a string longer. *)
Lemma replace_from_empty_length skip old s :
  (String.length (Py.replace_from skip old "" s) <= String.length s)%nat.
Proof.
  revert skip. induction s as [|c s IH]; intros skip; simpl; [lia|].
  destruct skip as [|k].
  - match goal with |- context [if ?b then _ else _] => destruct b end; simpl.
    + rewrite string_length_append. simpl.
      specialize (IH (Nat.pred (String.length old))). lia.
    + specialize (IH O). lia.
  - specialize (IH k). lia.
Qed.

Lemma end_session_is_running now t :
  is_running (end_session now t) = is_running t.
Proof. reflexivity. Qed.


End TrackerMoreFacts.

(** X8. [normalize_app_name]: the window title adds at most 50 characters to
    the name, and the parentheses 3: the result is never longer than the
    process name, or than "Unknown", plus 53. *)
Theorem normalize_app_name_length (window_title process_name : string) :
  (String.length (ActivityTracker.normalize_app_name window_title process_name)
   <= Nat.max 7 (String.length process_name) + 53)%nat.
Proof.
  unfold ActivityTracker.normalize_app_name.
  destruct (negb (Py.truthy_str window_title) && negb (Py.truthy_str process_name));
    [simpl; lia|].
  set (app_name := if Py.truthy_str process_name
                   then Py.replace ".exe" "" process_name else "Unknown").
  assert (Happ : (String.length app_name <= Nat.max 7 (String.length process_name))%nat).
  { subst app_name. destruct (Py.truthy_str process_name); [|simpl; lia].
    unfold Py.replace.
    pose proof (replace_from_empty_length O ".exe" process_name). lia. }
  destruct (Py.truthy_str window_title); [|lia].
  set (stripped := ActivityTracker.strip_suffix ActivityTracker.common_suffixes
                     window_title).
  set (clean_title := if (50 <? String.length stripped)%nat
                      then Py.take 47 stripped ++ "..." else stripped).
  assert (Hclean : (String.length clean_title <= 50)%nat).
  { subst clean_title.
    destruct (Nat.ltb_spec 50 (String.length stripped)); [|lia].
    rewrite string_length_append. unfold Py.take.
    pose proof (string_length_substring_le 47 stripped). simpl. lia. }
  destruct (negb (String.eqb clean_title app_name)); [|lia].
  rewrite !string_length_append. simpl. lia.
Qed.


(** *** Beyond the claims: the reminder scheduler *)

Section SchedulerMoreFacts.
Import Datetime Scheduler SchedulerSettings.

Variable fromisoformat : string -> option time.

Lemma kind_name_inj k1 k2 : kind_name k1 = kind_name k2 -> k1 = k2.
Proof. destruct k1, k2; simpl; intros H; try reflexivity; discriminate. Qed.

Lemma arm_well_formed k now i s :
  timers_well_formed s -> timers_well_formed (arm k now i s).
Proof.
  intros Hwf name id. unfold arm; simpl.
  destruct (decide (kind_name k = name)) as [<-|Hne].
  - rewrite lookup_insert_eq. intros [= <-].
    exists k, (mk_timer k now i Waiting).
    split; [reflexivity|]. split; [apply list_lookup_middle; reflexivity | reflexivity].
  - rewrite lookup_insert_ne by assumption. intros H.
    destruct (Hwf name id H) as (k' & t & Hn & Ht & Hf).
    exists k', t. split; [exact Hn|]. split; [|exact Hf].
    now apply lookup_app_l_Some.
Qed.

Lemma schedule_well_formed k now s :
  timers_well_formed s -> timers_well_formed (schedule fromisoformat k now s).
Proof.
  intros Hwf. destruct (schedule_cases fromisoformat k now s) as [-> | [delay ->]];
    [exact Hwf | now apply arm_well_formed].
Qed.

Lemma set_status_well_formed id st s :
  timers_well_formed s -> timers_well_formed (set_status id st s).
Proof.
  intros Hwf name id' H. simpl in H.
  destruct (Hwf name id' H) as (k & t & Hn & Ht & Hf).
  unfold set_status; simpl.
  destruct (decide (id = id')) as [<-|Hne].
  - exists k, (mk_timer (function t) (armed_at t) (interval t) st).
    split; [exact Hn|]. split; [|exact Hf].
    now rewrite list_lookup_alter_eq, Ht.
  - exists k, t. split; [exact Hn|]. split; [|exact Hf].
    now rewrite list_lookup_alter_ne.
Qed.

Lemma start_all_well_formed now s :
  timers_well_formed s -> timers_well_formed (start_all_reminders fromisoformat now s).
Proof.
  intros Hwf. unfold start_all_reminders.
  destruct (is_running s); [exact Hwf|]. cbv zeta.
  assert (H4 : timers_well_formed
                 (schedule_daily_summary fromisoformat now
                    (schedule_reminder inspiration now
                       (schedule_reminder hydration now
                          (schedule_reminder break now
                             (mk_scheduler (settings_of s) (is_modal_notifier s)
                                (timers s) true (Some now) (threads s)
                                (notifier_calls s))))))).
  { apply (schedule_well_formed daily_summary).
    unfold schedule_reminder. do 3 apply arm_well_formed. exact Hwf. }
  match goal with
  | |- timers_well_formed (if ?b then _ else _) => destruct b
  end; [|exact H4].
  unfold schedule_reminder at 1 2 3. now do 3 apply arm_well_formed.
Qed.

Lemma callback_well_formed k e s :
  timers_well_formed s -> timers_well_formed (callback fromisoformat k e s).1.
Proof.
  intros Hwf.
  assert (Hn : forall m, timers_well_formed (notify m s)) by (intros m; exact Hwf).
  assert (Hr : timers_well_formed (send_reminder fromisoformat k e s).1).
  { unfold send_reminder.
    destruct (should_send_reminder _ _ _); [|now apply schedule_well_formed].
    destruct (notifier_raises e _); simpl; [apply Hn|].
    apply schedule_well_formed, Hn. }
  destruct k; try exact Hr.
  simpl. unfold send_summary; simpl.
  apply (schedule_well_formed daily_summary).
  destruct (db_raises e); [exact Hwf | apply Hn].
Qed.

Lemma step_well_formed s ev :
  timers_well_formed s -> timers_well_formed (step fromisoformat s ev).
Proof.
  intros Hwf. destruct ev as [now| |id|id e]; simpl.
  - now apply start_all_well_formed.
  - unfold stop_all_reminders. destruct (negb (is_running s)); [exact Hwf|].
    intros name id H. simpl in H. now rewrite lookup_empty in H.
  - destruct (threads s !! id) as [t|]; [|exact Hwf].
    destruct (status t); try exact Hwf. now apply set_status_well_formed.
  - destruct (threads s !! id) as [t|]; [|exact Hwf].
    destruct (status t); try exact Hwf.
    pose proof (callback_well_formed (function t) e s Hwf) as Hc.
    destruct (callback fromisoformat (function t) e s) as [s1 returned].
    now apply set_status_well_formed.
Qed.

End SchedulerMoreFacts.

(** X13. In every state the scheduler reaches, every entry of [self.timers]
    is under the key of a reminder kind and refers to a timer that exists
    and calls the callback of that kind. *)
Theorem timers_stay_well_formed
    (fromisoformat : string -> option Datetime.time)
    (evs : list Scheduler.event) (modal : bool) (loaded : Scheduler.settings) :
  SchedulerSettings.timers_well_formed
    (Scheduler.run fromisoformat evs (Scheduler.init modal loaded)).
Proof.
  assert (Hinit : SchedulerSettings.timers_well_formed (Scheduler.init modal loaded)).
  { intros name id H. simpl in H. now rewrite lookup_empty in H. }
  revert Hinit. generalize (Scheduler.init modal loaded).
  induction evs as [|ev evs IH]; intros s Hwf; simpl; [exact Hwf|].
  apply IH. now apply step_well_formed.
Qed.

Section StopFacts.
Import Datetime Scheduler SchedulerSettings.

Variable fromisoformat : string -> option time.

Lemma cancel_cancel t : cancel (cancel t) = cancel t.
Proof. unfold cancel. now destruct (status t) eqn:E; simpl; rewrite ?E. Qed.

Lemma cancel_not_alive t : status t <> Running -> is_alive (cancel t) = false.
Proof. unfold cancel, is_alive. destruct (status t) eqn:E; simpl; rewrite ?E; congruence. Qed.

Lemma cancel_not_waiting t : status t <> Waiting -> cancel t = t.
Proof. unfold cancel. destruct (status t); congruence. Qed.

(** [cancel_if_alive] cancels the timer at its index and touches no
    other. *)
Lemma cancel_if_alive_lookup id (ths : list timer) j :
  cancel_if_alive id ths !! j =
  if decide (id = j) then cancel <$> ths !! j else ths !! j.
Proof.
  unfold cancel_if_alive.
  destruct (ths !! id) as [t|] eqn:Ht.
  - destruct (is_alive t) eqn:Ha.
    + destruct (decide (id = j)) as [<-|Hne].
      * rewrite list_lookup_insert_eq by (now apply lookup_lt_Some in Ht).
        now rewrite Ht.
      * now rewrite list_lookup_insert_ne.
    + destruct (decide (id = j)) as [<-|Hne]; [|reflexivity].
      rewrite Ht. simpl. f_equal. symmetry. apply cancel_not_waiting.
      unfold is_alive in Ha. destruct (status t); congruence.
  - destruct (decide (id = j)) as [<-|Hne]; [now rewrite Ht | reflexivity].
Qed.

(** The loop of [stop_all_reminders] cancels the timers of its items and
    touches no other. *)
Lemma stop_loop_lookup (items : list (string * nat)) (ths : list timer) j :
  foldr (fun item ths => cancel_if_alive item.2 ths) ths items !! j =
  if bool_decide (j ∈ items.*2) then cancel <$> ths !! j else ths !! j.
Proof.
  induction items as [|[name id] items IH]; [reflexivity|].
  - rewrite fmap_cons. cbn [foldr snd].
    rewrite cancel_if_alive_lookup, IH.
    destruct (decide (id = j)) as [<-|Hne].
    + rewrite (bool_decide_eq_true_2 (id ∈ id :: items.*2)) by apply list_elem_of_here.
      destruct (bool_decide (id ∈ items.*2)); [|reflexivity].
      destruct (ths !! id); simpl; [now rewrite cancel_cancel | reflexivity].
    + destruct (bool_decide (j ∈ items.*2)) eqn:Hin.
      * apply bool_decide_eq_true in Hin.
        rewrite bool_decide_eq_true_2; [reflexivity | now apply list_elem_of_further].
      * apply bool_decide_eq_false in Hin.
        rewrite bool_decide_eq_false_2; [reflexivity|].
        intros [?|?]%elem_of_cons; [congruence | contradiction].
Qed.

Lemma forallb_imap_lookup {A B} (f : B -> bool) (g : nat -> A -> B) (l : list A) :
  forallb f (imap g l) = true ->
  forall i x, l !! i = Some x -> f (g i x) = true.
Proof.
  revert g. induction l as [|a l IH]; intros g H i x Hl; [discriminate|].
  simpl in H. apply andb_prop in H as [Ha Hrest].
  destruct i as [|i]; simpl in Hl.
  - now injection Hl as <-.
  - apply (IH (g ∘ S) Hrest i x Hl).
Qed.

Lemma forallb_lookup {A} (f : A -> bool) (l : list A) :
  forallb f l = true -> forall i x, l !! i = Some x -> f x = true.
Proof.
  induction l as [|a l IH]; intros H i x Hl; [discriminate|].
  simpl in H. apply andb_prop in H as [Ha Hrest].
  destruct i as [|i]; simpl in Hl; [now injection Hl as <- | now apply (IH Hrest i)].
Qed.

(** After [stop_all_reminders], when no callback was in flight and every
    live timer was registered, no timer is alive. *)
Lemma stop_all_none_alive s :
  is_running s = true -> all_registered s = true -> none_in_flight s = true ->
  Forall (fun t => is_alive t = false) (threads (stop_all_reminders s)).
Proof.
  intros Hrun Hreg Hfl. unfold stop_all_reminders. rewrite Hrun. simpl.
  apply Forall_lookup. intros j t' Hj.
  rewrite stop_loop_lookup in Hj.
  destruct (threads s !! j) as [t|] eqn:Ht;
    [|destruct (bool_decide _); discriminate].
  pose proof (forallb_lookup _ _ Hfl j t Ht) as Hnr. simpl in Hnr.
  pose proof (forallb_imap_lookup _ _ _ Hreg j t Ht) as Hr. simpl in Hr.
  assert (Hnotrun : status t <> Running) by (destruct (status t); congruence).
  fold (registered_ids s) in Hj.
  destruct (bool_decide (j ∈ registered_ids s)) eqn:Hin; simpl in Hj.
  - injection Hj as <-. now apply cancel_not_alive.
  - injection Hj as <-. rewrite orb_false_r in Hr.
    now apply negb_true_iff in Hr.
Qed.

(** A scheduler without live timers ignores the events of the timer
    threads. *)
Lemma step_none_alive s ev :
  Forall (fun t => is_alive t = false) (threads s) ->
  timer_event ev = true -> step fromisoformat s ev = s.
Proof.
  intros Hdead Hev. rewrite Forall_lookup in Hdead.
  destruct ev as [now| |id|id e]; try discriminate; simpl.
  - destruct (threads s !! id) as [t|] eqn:Ht; [|reflexivity].
    specialize (Hdead id t Ht). unfold is_alive in Hdead.
    destruct (status t); try reflexivity; discriminate.
  - destruct (threads s !! id) as [t|] eqn:Ht; [|reflexivity].
    specialize (Hdead id t Ht). unfold is_alive in Hdead.
    destruct (status t); try reflexivity; discriminate.
Qed.

End StopFacts.

(** X14. [stop_all_reminders] on a running scheduler in which no callback is
    in flight and every live timer is in [self.timers]: afterwards the
    scheduler is not running, [self.timers] is empty, no timer is alive,
    and whatever the timer threads do next changes nothing; in
    particular the notifier is not called again. *)
Theorem stop_all_reminders_silences
    (fromisoformat : string -> option Datetime.time)
    (s : Scheduler.scheduler) (evs : list Scheduler.event)
    (Hrun : Scheduler.is_running s = true)
    (Hregistered : SchedulerSettings.all_registered s = true)
    (Hquiet : SchedulerSettings.none_in_flight s = true)
    (Hthreads : forallb SchedulerSettings.timer_event evs = true) :
  let s' := Scheduler.stop_all_reminders s in
  Scheduler.is_running s' = false /\
  Scheduler.timers s' = ∅ /\
  Forall (fun t => Scheduler.is_alive t = false) (Scheduler.threads s') /\
  Scheduler.run fromisoformat evs s' = s' /\
  Scheduler.notifier_calls (Scheduler.run fromisoformat evs s') =
    Scheduler.notifier_calls s.
Proof.
  cbv zeta.
  pose proof (stop_all_none_alive s Hrun Hregistered Hquiet) as Hdead.
  assert (Hrunev : Scheduler.run fromisoformat evs (Scheduler.stop_all_reminders s) =
                   Scheduler.stop_all_reminders s).
  { revert Hdead. generalize (Scheduler.stop_all_reminders s). intros s' Hdead.
    induction evs as [|ev evs IH]; simpl; [reflexivity|].
    simpl in Hthreads. apply andb_prop in Hthreads as [Hev Hrest].
    rewrite (step_none_alive fromisoformat s' ev Hdead Hev). now apply IH. }
  rewrite Hrunev.
  unfold Scheduler.stop_all_reminders in *. rewrite Hrun in *. simpl in *.
  repeat split; assumption.
Qed.

Lemma stop_all_reminders_silences_witness :
  let parse := Scheduler.fromisoformat_hms in
  let s := Scheduler.start_all_reminders parse (SchedulerExamples.tuesday 9 15)
             SchedulerExamples.modal_scheduler in
  let evs := [Scheduler.Expire 0;
              Scheduler.Call 0
                (Scheduler.mk_env (SchedulerExamples.tuesday 10 0)
                   SchedulerExamples.never_raises false)] in
  let s' := Scheduler.stop_all_reminders s in
  length (Scheduler.threads s) = 7%nat /\
  Scheduler.is_running s' = false /\
  Scheduler.timers s' = ∅ /\
  Forall (fun t => Scheduler.is_alive t = false) (Scheduler.threads s') /\
  Scheduler.run parse evs s' = s' /\
  Scheduler.notifier_calls (Scheduler.run parse evs s') = Scheduler.notifier_calls s.
Proof.
  split; [reflexivity|].
  apply (stop_all_reminders_silences Scheduler.fromisoformat_hms
           (Scheduler.start_all_reminders Scheduler.fromisoformat_hms
              (SchedulerExamples.tuesday 9 15) SchedulerExamples.modal_scheduler)
           [Scheduler.Expire 0;
            Scheduler.Call 0
              (Scheduler.mk_env (SchedulerExamples.tuesday 10 0)
                 SchedulerExamples.never_raises false)]).
  - reflexivity.
  - vm_compute. reflexivity.
  - reflexivity.
  - reflexivity.
Defined.

Section FiringFacts.
Import Datetime Scheduler SchedulerSettings.

Variable fromisoformat : string -> option time.

(** What the callback of a kind other than the daily summary comes to
    when the notifier does not raise: the call of the notifier when the
    firing is eligible, then the re-arming. *)
Lemma callback_rearms k e s :
  k <> daily_summary ->
  notifier_raises e (reminder_method k s) = false ->
  callback fromisoformat k e s =
    (arm k (env_now e) (seconds (reminder_interval k s))
       (if should_send_reminder fromisoformat (env_now e) s
        then notify (reminder_method k s) s else s),
     true).
Proof.
  intros Hk Hquiet.
  assert (Hcb : callback fromisoformat k e s = send_reminder fromisoformat k e s)
    by (destruct k; try reflexivity; contradiction).
  rewrite Hcb. unfold send_reminder. rewrite Hquiet.
  destruct (should_send_reminder fromisoformat (env_now e) s);
    destruct k; try contradiction; reflexivity.
Qed.

Lemma pending_app k s l :
  List.filter (fun t => bool_decide (function t = k) && is_alive t) (threads s ++ l)%list =
  (pending k s ++
   List.filter (fun t => bool_decide (function t = k) && is_alive t) l)%list.
Proof. unfold pending. apply List.filter_app. Qed.

End FiringFacts.

(** X15. The firing of a timer of a kind other than the daily summary, when
    the notifier does not raise, whether the firing is eligible or not:
    the timer that fired is finished, one new timer of the kind is
    waiting under the key of the kind, armed now with the interval of the
    kind, so the number of live timers of the kind is unchanged; the
    timers of the other kinds are untouched. *)
Theorem firing_rearms_its_kind
    (fromisoformat : string -> option Datetime.time)
    (id : nat) (e : Scheduler.environment) (s : Scheduler.scheduler)
    (t : Scheduler.timer)
    (Hthread : Scheduler.threads s !! id = Some t)
    (Hstatus : Scheduler.status t = Scheduler.Running)
    (Hkind : Scheduler.function t <> Scheduler.daily_summary)
    (Hquiet :
       Scheduler.notifier_raises e
         (Scheduler.reminder_method (Scheduler.function t) s) = false) :
  let k := Scheduler.function t in
  let s' := Scheduler.step fromisoformat s (Scheduler.Call id e) in
  Scheduler.status <$> Scheduler.threads s' !! id = Some Scheduler.Finished /\
  Scheduler.timer_of s' (Scheduler.kind_name k) =
    Some (Scheduler.mk_timer k (Scheduler.env_now e)
            (Scheduler.seconds (Scheduler.reminder_interval k s))
            Scheduler.Waiting) /\
  length (Scheduler.pending k s') = length (Scheduler.pending k s) /\
  (forall k', k' <> k -> Scheduler.pending k' s' = Scheduler.pending k' s).
Proof.
  cbv zeta. simpl Scheduler.step. rewrite Hthread, Hstatus.
  rewrite (callback_rearms fromisoformat _ e s Hkind Hquiet).
  set (sx := if Scheduler.should_send_reminder fromisoformat (Scheduler.env_now e) s
             then Scheduler.notify _ s else s).
  assert (Hths : Scheduler.threads sx = Scheduler.threads s)
    by (subst sx; now destruct (Scheduler.should_send_reminder _ _ _)).
  assert (Htms : Scheduler.timers sx = Scheduler.timers s)
    by (subst sx; now destruct (Scheduler.should_send_reminder _ _ _)).
  set (new := Scheduler.mk_timer (Scheduler.function t) (Scheduler.env_now e)
                (Scheduler.seconds
                   (Scheduler.reminder_interval (Scheduler.function t) s))
                Scheduler.Waiting).
  set (done := fun t0 => Scheduler.mk_timer (Scheduler.function t0)
                           (Scheduler.armed_at t0) (Scheduler.interval t0)
                           Scheduler.Finished).
  pose proof (lookup_lt_Some _ _ _ Hthread) as Hlt.
  destruct (list_elem_of_split_length _ _ _ Hthread) as (l1 & l2 & Hsplit & Hid).
  assert (Hall : Scheduler.threads
                   (Scheduler.set_status id Scheduler.Finished
                      (Scheduler.arm (Scheduler.function t) (Scheduler.env_now e)
                         (Scheduler.seconds
                            (Scheduler.reminder_interval (Scheduler.function t) s))
                         sx)) =
                 (l1 ++ done t :: l2 ++ [new])%list).
  { unfold Scheduler.set_status, Scheduler.arm; simpl.
    rewrite Hths, Hsplit, <- app_assoc, Hid. simpl.
    replace (length l1) with (length l1 + 0)%nat by lia.
    now rewrite alter_app_r. }
  split; [|split; [|split]].
  - rewrite Hall, Hid, list_lookup_middle by reflexivity. reflexivity.
  - unfold Scheduler.timer_of.
    assert (Htm : Scheduler.timers
                    (Scheduler.set_status id Scheduler.Finished
                       (Scheduler.arm (Scheduler.function t) (Scheduler.env_now e)
                          (Scheduler.seconds
                             (Scheduler.reminder_interval (Scheduler.function t) s))
                          sx)) !! Scheduler.kind_name (Scheduler.function t) =
                  Some (length (Scheduler.threads s)))
      by (unfold Scheduler.set_status, Scheduler.arm; simpl;
          now rewrite lookup_insert_eq, Hths).
    rewrite Htm, Hall, Hsplit.
    replace (l1 ++ done t :: l2 ++ [new])%list
      with ((l1 ++ done t :: l2) ++ [new])%list by (now rewrite <- app_assoc).
    apply list_lookup_middle. rewrite !length_app. simpl. reflexivity.
  - assert (Ht : Scheduler.is_alive t = true)
      by (unfold Scheduler.is_alive; now rewrite Hstatus).
    unfold Scheduler.pending. rewrite Hall, Hsplit.
    rewrite !List.filter_app. cbn [List.filter]. rewrite !List.filter_app.
    cbn [List.filter].
    change (Scheduler.function (done t)) with (Scheduler.function t).
    change (Scheduler.function new) with (Scheduler.function t).
    change (Scheduler.is_alive (done t)) with false.
    change (Scheduler.is_alive new) with true.
    rewrite Ht, !bool_decide_eq_true_2 by reflexivity. cbn [andb].
    rewrite !length_app. cbn [length]. rewrite ?length_app. cbn [length]. lia.
  - intros k' Hk'. unfold Scheduler.pending. rewrite Hall, Hsplit.
    rewrite !List.filter_app. cbn [List.filter]. rewrite !List.filter_app.
    cbn [List.filter].
    change (Scheduler.function (done t)) with (Scheduler.function t).
    change (Scheduler.function new) with (Scheduler.function t).
    rewrite !bool_decide_eq_false_2 by congruence. cbn [andb].
    now rewrite app_nil_r.
Qed.

Lemma firing_rearms_its_kind_witness :
  let parse := Scheduler.fromisoformat_hms in
  let s := Scheduler.run parse
             [Scheduler.StartAll (SchedulerExamples.saturday 9 15);
              Scheduler.Expire 1] SchedulerExamples.modal_scheduler in
  let e := Scheduler.mk_env (SchedulerExamples.saturday 11 15)
             SchedulerExamples.modal_manager_raises false in
  let t := Scheduler.mk_timer Scheduler.hydration (SchedulerExamples.saturday 9 15)
             (Scheduler.seconds (120 * 60)) Scheduler.Running in
  let k := Scheduler.function t in
  let s' := Scheduler.step parse s (Scheduler.Call 1 e) in
  Scheduler.should_send_reminder parse (Scheduler.env_now e) s = false /\
  Scheduler.status <$> Scheduler.threads s' !! 1%nat = Some Scheduler.Finished /\
  Scheduler.timer_of s' (Scheduler.kind_name k) =
    Some (Scheduler.mk_timer k (Scheduler.env_now e)
            (Scheduler.seconds (Scheduler.reminder_interval k s))
            Scheduler.Waiting) /\
  length (Scheduler.pending k s') = length (Scheduler.pending k s) /\
  (forall k', k' <> k -> Scheduler.pending k' s' = Scheduler.pending k' s).
Proof.
  split; [reflexivity|].
  apply (firing_rearms_its_kind Scheduler.fromisoformat_hms 1
           (Scheduler.mk_env (SchedulerExamples.saturday 11 15)
              SchedulerExamples.modal_manager_raises false)
           (Scheduler.run Scheduler.fromisoformat_hms
              [Scheduler.StartAll (SchedulerExamples.saturday 9 15);
               Scheduler.Expire 1] SchedulerExamples.modal_scheduler)
           (Scheduler.mk_timer Scheduler.hydration (SchedulerExamples.saturday 9 15)
              (Scheduler.seconds (120 * 60)) Scheduler.Running)).
  - reflexivity.
  - reflexivity.
  - discriminate.
  - reflexivity.
Defined.

Section RestartFacts.
Import Datetime Scheduler SchedulerSettings.

Variable fromisoformat : string -> option time.

Lemma extends_same s s' : threads s' = threads s -> extends s s'.
Proof. intros H. exists []. now rewrite app_nil_r. Qed.

Lemma extends_arm k now i s s0 : extends s0 s -> extends s0 (arm k now i s).
Proof.
  intros [l Hl]. exists (l ++ [mk_timer k now i Waiting])%list.
  unfold arm; simpl. now rewrite Hl, app_assoc.
Qed.

Lemma extends_schedule_daily_summary now s s0 :
  extends s0 s -> extends s0 (schedule_daily_summary fromisoformat now s).
Proof.
  intros H. destruct (schedule_daily_summary_cases fromisoformat now s)
    as [-> | [delay ->]]; [exact H | now apply extends_arm].
Qed.

Lemma start_all_extends now s : extends s (start_all_reminders fromisoformat now s).
Proof.
  unfold start_all_reminders. destruct (is_running s); [now apply extends_same|].
  cbv zeta.
  assert (H4 : extends s
                 (schedule_daily_summary fromisoformat now
                    (schedule_reminder inspiration now
                       (schedule_reminder hydration now
                          (schedule_reminder break now
                             (mk_scheduler (settings_of s) (is_modal_notifier s)
                                (timers s) true (Some now) (threads s)
                                (notifier_calls s))))))).
  { apply extends_schedule_daily_summary. unfold schedule_reminder.
    do 3 apply extends_arm. now apply extends_same. }
  match goal with |- extends s (if ?b then _ else _) => destruct b end;
    [|exact H4].
  unfold schedule_reminder at 1 2 3. now do 3 apply extends_arm.
Qed.

(** [start_all_reminders] on a scheduler that is not running: the
    settings are kept, the scheduler runs, and break, hydration and
    inspiration are armed now with their interval. *)
Lemma start_all_interval_kinds now s k :
  is_running s = false ->
  k = break \/ k = hydration \/ k = inspiration ->
  let s' := start_all_reminders fromisoformat now s in
  settings_of s' = settings_of s /\
  is_running s' = true /\
  timer_of s' (kind_name k) =
    Some (mk_timer k now (seconds (reminder_interval k s)) Waiting).
Proof.
  intros Hrun Hk. cbv zeta. unfold start_all_reminders. rewrite Hrun. cbv zeta.
  set (s0 := mk_scheduler _ _ _ true _ _ _).
  set (s3 := schedule_reminder inspiration now
               (schedule_reminder hydration now (schedule_reminder break now s0))).
  destruct (schedule_daily_summary_settings fromisoformat now s3)
    as (Hconf & Hmodal & Hr & _).
  assert (H3 : timer_of s3 (kind_name k) =
               Some (mk_timer k now (seconds (reminder_interval k s)) Waiting)).
  { subst s3. unfold schedule_reminder.
    destruct Hk as [-> | [-> | ->]].
    - do 2 (apply timer_of_arm_other; [discriminate|]).
      apply (timer_of_arm_same break).
    - apply timer_of_arm_other; [discriminate|].
      apply (timer_of_arm_same hydration).
    - apply (timer_of_arm_same inspiration). }
  assert (H4 : timer_of (schedule_daily_summary fromisoformat now s3) (kind_name k) =
               Some (mk_timer k now (seconds (reminder_interval k s)) Waiting)).
  { apply timer_of_schedule_daily_summary_other; [|exact H3].
    destruct Hk as [-> | [-> | ->]]; discriminate. }
  match goal with |- context [if ?b then _ else _] => destruct b end.
  - repeat split; [exact Hconf | exact Hr |].
    unfold schedule_reminder at 1 2 3.
    do 3 (apply timer_of_arm_other;
          [destruct Hk as [-> | [-> | ->]]; discriminate|]).
    exact H4.
  - repeat split; [exact Hconf | exact Hr | exact H4].
Qed.

Lemma stop_all_cancels_registered s name id t :
  is_running s = true ->
  timers s !! name = Some id -> threads s !! id = Some t ->
  threads (stop_all_reminders s) !! id = Some (cancel t).
Proof.
  intros Hrun Hname Ht. unfold stop_all_reminders. rewrite Hrun. simpl.
  rewrite stop_loop_lookup, Ht.
  rewrite bool_decide_eq_true_2; [reflexivity|].
  apply list_elem_of_fmap. exists (name, id). split; [reflexivity|].
  now apply elem_of_map_to_list.
Qed.

End RestartFacts.

(** X16. [update_settings] on a running scheduler: the new values are merged
    into the settings, every timer that [self.timers] held is cancelled
    if it was waiting, and the scheduler runs again with break, hydration
    and inspiration armed now with the intervals of the merged settings,
    so a changed interval counts from the update. *)
Theorem update_settings_restarts
    (fromisoformat : string -> option Datetime.time)
    (new_settings : Scheduler.settings) (now : Datetime.datetime)
    (s : Scheduler.scheduler)
    (Hrun : Scheduler.is_running s = true) :
  let s' := SchedulerSettings.update_settings fromisoformat new_settings now s in
  let conf := SchedulerSettings.update (Scheduler.settings_of s) new_settings in
  let armed k minutes :=
    Scheduler.timer_of s' (Scheduler.kind_name k) =
      Some (Scheduler.mk_timer k now (Scheduler.seconds (minutes * 60))
              Scheduler.Waiting) in
  Scheduler.is_running s' = true /\
  Scheduler.settings_of s' = conf /\
  armed Scheduler.break (Scheduler.get (Scheduler.break_interval conf) 45) /\
  armed Scheduler.hydration (Scheduler.get (Scheduler.hydration_interval conf) 120) /\
  armed Scheduler.inspiration
    (Scheduler.get (Scheduler.inspiration_interval conf) 180) /\
  (forall name id t,
      Scheduler.timers s !! name = Some id ->
      Scheduler.threads s !! id = Some t ->
      Scheduler.threads s' !! id = Some (Scheduler.cancel t)).
Proof.
  cbv zeta. unfold SchedulerSettings.update_settings. cbv zeta.
  simpl Scheduler.is_running at 1. rewrite Hrun.
  set (s1 := Scheduler.mk_scheduler _ _ _ _ _ _ _).
  assert (Hrun1 : Scheduler.is_running s1 = true) by reflexivity.
  rewrite Hrun1.
  assert (Hstopped : Scheduler.is_running (Scheduler.stop_all_reminders s1) = false)
    by (unfold Scheduler.stop_all_reminders; now rewrite Hrun1).
  assert (Hconf : Scheduler.settings_of (Scheduler.stop_all_reminders s1) =
                  SchedulerSettings.update (Scheduler.settings_of s) new_settings)
    by (unfold Scheduler.stop_all_reminders; now rewrite Hrun1).
  assert (Hint : forall k,
             Scheduler.reminder_interval k (Scheduler.stop_all_reminders s1) =
             Scheduler.reminder_interval k s1)
    by (intros k; unfold Scheduler.stop_all_reminders; now rewrite Hrun1).
  destruct (start_all_interval_kinds fromisoformat now _ Scheduler.break
              Hstopped ltac:(auto)) as (Hc & Hr & Hb).
  destruct (start_all_interval_kinds fromisoformat now _ Scheduler.hydration
              Hstopped ltac:(auto)) as (_ & _ & Hh).
  destruct (start_all_interval_kinds fromisoformat now _ Scheduler.inspiration
              Hstopped ltac:(auto)) as (_ & _ & Hi).
  rewrite Hint in Hb, Hh, Hi.
  split; [exact Hr|]. split; [now rewrite Hc|].
  split; [exact Hb|]. split; [exact Hh|]. split; [exact Hi|].
  intros name id t Hname Ht.
  destruct (start_all_extends fromisoformat now (Scheduler.stop_all_reminders s1))
    as [l ->].
  apply lookup_app_l_Some.
  now apply (stop_all_cancels_registered s1 name id t Hrun1).
Qed.

Lemma update_settings_restarts_witness :
  let parse := Scheduler.fromisoformat_hms in
  let s := Scheduler.start_all_reminders parse (SchedulerExamples.tuesday 9 0)
             SchedulerExamples.modal_scheduler in
  let new_settings :=
    Scheduler.mk_settings (Some 10) None None None None None None None in
  let now := SchedulerExamples.tuesday 9 30 in
  let s' := SchedulerSettings.update_settings parse new_settings now s in
  let conf := SchedulerSettings.update (Scheduler.settings_of s) new_settings in
  let armed k minutes :=
    Scheduler.timer_of s' (Scheduler.kind_name k) =
      Some (Scheduler.mk_timer k now (Scheduler.seconds (minutes * 60))
              Scheduler.Waiting) in
  Scheduler.get (Scheduler.break_interval conf) 45 = 10 /\
  Scheduler.is_running s' = true /\
  Scheduler.settings_of s' = conf /\
  armed Scheduler.break (Scheduler.get (Scheduler.break_interval conf) 45) /\
  armed Scheduler.hydration (Scheduler.get (Scheduler.hydration_interval conf) 120) /\
  armed Scheduler.inspiration
    (Scheduler.get (Scheduler.inspiration_interval conf) 180) /\
  (forall name id t,
      Scheduler.timers s !! name = Some id ->
      Scheduler.threads s !! id = Some t ->
      Scheduler.threads s' !! id = Some (Scheduler.cancel t)).
Proof.
  split; [reflexivity|].
  apply (update_settings_restarts Scheduler.fromisoformat_hms
           (Scheduler.mk_settings (Some 10) None None None None None None None)
           (SchedulerExamples.tuesday 9 30)
           (Scheduler.start_all_reminders Scheduler.fromisoformat_hms
              (SchedulerExamples.tuesday 9 0) SchedulerExamples.modal_scheduler)).
  reflexivity.
Defined.

Lemma schedule_daily_summary_fire_time_witness :
  let parse := Scheduler.fromisoformat_hms in
  let s := SchedulerExamples.plain_scheduler in
  let t := Datetime.mk_time 17 0 0 0 in
  let now := SchedulerExamples.tuesday 18 0 in
  let today := Datetime.combine (Datetime.dt_date now) t in
  let tomorrow :=
    Datetime.combine (Datetime.next_day (Datetime.dt_date now)) t in
  let fires :=
    Scheduler.fire_time <$>
      Scheduler.timer_of (Scheduler.schedule_daily_summary parse now s)
                         "daily_summary" in
  Datetime.datetime_le today now = true /\
  Datetime.next_day (Datetime.dt_date now) = Datetime.mk_date 2024 1 10 /\
  (Datetime.datetime_le today now = false ->
   fires = Some (Datetime.datetime_micros today)) /\
  (Datetime.datetime_le today now = true ->
   Datetime.day (Datetime.dt_date now) <
     Datetime.days_in_month (Datetime.year (Datetime.dt_date now))
                            (Datetime.month (Datetime.dt_date now)) ->
   fires = Some (Datetime.datetime_micros tomorrow)).
Proof.
  split; [reflexivity|]. split; [reflexivity|].
  apply (schedule_daily_summary_fire_time Scheduler.fromisoformat_hms
           (SchedulerExamples.tuesday 18 0) SchedulerExamples.plain_scheduler
           (Datetime.mk_time 17 0 0 0)).
  - reflexivity.
  - reflexivity.
  - reflexivity.
Defined.

Lemma nonempty_session_closed_before_opening_witness :
  let t := ActivityTracker.start_session "notepad (Doc)"
             (Datetime.at_ 2024 1 10 10 0 0)
             (ActivityTracker.init Database.empty 5) in
  let o := ActivityTracker.mk_obs (Datetime.at_ 2024 1 10 10 0 5) 0
             (Some "Inbox - Google Chrome", Some "chrome.exe") in
  let t' := ActivityTracker.track_activity_iteration o t in
  t' = ActivityTracker.start_session "chrome (Inbox)" (ActivityTracker.now o)
         (ActivityTracker.end_session (ActivityTracker.now o) t) /\
  (t' = t \/
   t' = ActivityTracker.end_session (ActivityTracker.now o) t \/
   exists app', t' = ActivityTracker.start_session app' (ActivityTracker.now o)
                       (ActivityTracker.end_session (ActivityTracker.now o) t)).
Proof.
  split; [reflexivity|].
  apply (nonempty_session_closed_before_opening
           (ActivityTracker.mk_obs (Datetime.at_ 2024 1 10 10 0 5) 0
              (Some "Inbox - Google Chrome", Some "chrome.exe"))
           (ActivityTracker.start_session "notepad (Doc)"
              (Datetime.at_ 2024 1 10 10 0 0)
              (ActivityTracker.init Database.empty 5))
           "notepad (Doc)").
  - reflexivity.
  - discriminate.
Defined.
